(** * polymc-meta: the metadata model of [meta/model/__init__.py]

    A shallow embedding of the Python module: the Maven coordinate type
    [GradleSpecifier], the pydantic models built on [MetaBase], the
    arch-rule expansion of [MojangLibrary.dict] and the JSON rendering
    requested by [MetaBase.json].

    Python values are modelled as follows.
    - [str] is [string]; every character is one code point below 256.
    - [int] is [Z] (Python integers are unbounded).
    - [Optional[T]] is [option T]; [None] is [None].
    - a [dict] is an association list in insertion order.
    - a raised exception is the [Raise] case of [result]. *)

From Stdlib Require Import List String Ascii ZArith Lia Bool.
From Stdlib Require Import Permutation Sorted DecimalString.
Import ListNotations.

Open Scope list_scope.
Open Scope string_scope.

(** ** The fragment of Python the module relies on *)

Inductive exn : Type :=
| IndexError        (* list index out of range *)
| TypeError         (* raised by GradleSpecifier.validate *)
| AttributeError    (* attribute access on None *)
| AssertionError    (* a failed assert statement *)
| ValidationError.  (* pydantic: a field validator failed *)

Inductive result (A : Type) : Type :=
| Ok (a : A)
| Raise (e : exn).

Arguments Ok {A} a.
Arguments Raise {A} e.

Definition bind {A B : Type} (r : result A) (k : A -> result B) : result B :=
  match r with
  | Ok a => k a
  | Raise e => Raise e
  end.

Notation "x <- r ;; k" := (bind r (fun x => k))
  (at level 61, r at next level, right associativity).

(** [l[i]] for a non-negative literal index. *)
Definition getitem {A : Type} (l : list A) (i : nat) : result A :=
  match nth_error l i with
  | Some a => Ok a
  | None => Raise IndexError
  end.

(** [s.split(sep)] for a one-character separator: every occurrence of
    [sep] cuts, and the result is never empty ([''.split(':') == ['']]). *)
Fixpoint split (sep : ascii) (s : string) : list string :=
  match s with
  | EmptyString => [EmptyString]
  | String c rest =>
      if Ascii.eqb c sep then EmptyString :: split sep rest
      else match split sep rest with
           | piece :: pieces => String c piece :: pieces
           | [] => [String c EmptyString]
           end
  end.

(** [s.replace(old, new)] for one-character arguments. *)
Fixpoint replace (old new : ascii) (s : string) : string :=
  match s with
  | EmptyString => EmptyString
  | String c rest =>
      String (if Ascii.eqb c old then new else c) (replace old new rest)
  end.

(** [needle in hay] on strings: substring search. *)
Fixpoint contains (needle hay : string) : bool :=
  prefix needle hay
  || match hay with
     | EmptyString => false
     | String _ rest => contains needle rest
     end.

(** [x in xs] for a list (or tuple) of strings. *)
Definition mem (x : string) (xs : list string) : bool :=
  existsb (String.eqb x) xs.

(** Truth value of an [Optional[str]]: [None] and [''] are false. *)
Definition truthy_str (o : option string) : bool :=
  match o with
  | Some s => negb (s =? "")
  | None => false
  end.

(** [str(n)] for an integer. *)
Definition str_int (z : Z) : string :=
  NilEmpty.string_of_int (Z.to_int z).

(** ** GradleSpecifier *)

Module GradleSpecifier.

Record t : Type := mk {
  group : string;
  artifact : string;
  version : string;
  classifier : option string;
  extension : string
}.

Definition __init__ (group artifact version : string)
    (classifier extension : option string) : t :=
  let extension :=
    match extension with
    | None => "jar"
    | Some e => e
    end in
  mk group artifact version classifier extension.

Definition __str__ (self : t) : string :=
  let ext :=
    if negb (extension self =? "jar") then "@" ++ extension self else "" in
  match classifier self with
  | Some c =>
      if truthy_str (Some c)
      then group self ++ ":" ++ artifact self ++ ":" ++ version self
             ++ ":" ++ c ++ ext
      else group self ++ ":" ++ artifact self ++ ":" ++ version self ++ ext
  | None => group self ++ ":" ++ artifact self ++ ":" ++ version self ++ ext
  end.

Definition filename (self : t) : string :=
  match classifier self with
  | Some c =>
      if truthy_str (Some c)
      then artifact self ++ "-" ++ version self ++ "-" ++ c
             ++ "." ++ extension self
      else artifact self ++ "-" ++ version self ++ "." ++ extension self
  | None => artifact self ++ "-" ++ version self ++ "." ++ extension self
  end.

Definition base (self : t) : string :=
  replace "." "/" (group self) ++ "/" ++ artifact self ++ "/"
    ++ version self ++ "/".

Definition path (self : t) : string :=
  base self ++ filename self.

Definition __repr__ (self : t) : string :=
  "GradleSpecifier('" ++ __str__ self ++ "')".

Definition is_lwjgl (self : t) : bool :=
  mem (group self)
    ["org.lwjgl"; "org.lwjgl.lwjgl"; "net.java.jinput"; "net.java.jutils"].

Definition is_log4j (self : t) : bool :=
  group self =? "org.apache.logging.log4j".

Definition is_archdependent (self : t) : bool :=
  if contains "lwjgl" (group self) then true
  else if contains "objc" (artifact self) then true
  else false.

Definition from_string (v : string) : result t :=
  let ext_split := split "@" v in
  body <- getitem ext_split 0 ;;
  let components := split ":" body in
  group <- getitem components 0 ;;
  artifact <- getitem components 1 ;;
  version <- getitem components 2 ;;
  extension <-
    (if Nat.eqb (List.length ext_split) 2
     then e <- getitem ext_split 1 ;; Ok (Some e)
     else Ok None) ;;
  classifier <-
    (if Nat.eqb (List.length components) 4
     then c <- getitem components 3 ;; Ok (Some c)
     else Ok None) ;;
  Ok (__init__ group artifact version classifier extension).

(** The values [__eq__], [__lt__] and [__gt__] may receive as [other]:
    they only ever look at [str(other)]. *)
Inductive operand : Type :=
| OSpecifier (g : t)
| OStr (s : string)
| OInt (z : Z).

Definition str (o : operand) : string :=
  match o with
  | OSpecifier g => __str__ g
  | OStr s => s
  | OInt z => str_int z
  end.

Definition __eq__ (self : t) (other : operand) : bool :=
  __str__ self =? str other.

Definition __lt__ (self : t) (other : operand) : bool :=
  String.ltb (__str__ self) (str other).

Definition __gt__ (self : t) (other : operand) : bool :=
  String.ltb (str other) (__str__ self).

Section Hash.
(** Python's built-in [hash] on strings, fixed for one process. *)
Variable hash : string -> Z.

Definition __hash__ (self : t) : Z := hash (__str__ self).
End Hash.

Definition validate (v : operand) : result t :=
  match v with
  | OSpecifier g => Ok g
  | OStr s => from_string s
  | OInt _ => Raise TypeError
  end.

End GradleSpecifier.

(** ** Exported values

    What [BaseModel.dict] returns and [json.dumps] consumes.  A
    [GradleSpecifier] and a [datetime] stay objects in the exported
    dictionary; the JSON encoder turns them into strings through
    [MetaBase.Config.json_encoders]. *)

Record datetime : Type := mk_datetime {
  year : Z; month : Z; day : Z;
  hour : Z; minute : Z; second : Z; microsecond : Z;
  utcoffset : option Z
}.

#[warnings="-register-all"]
Inductive pyobj : Type :=
| PNone
| PBool (b : bool)
| PInt (z : Z)
| PStr (s : string)
| PSpecifier (g : GradleSpecifier.t)
| PDatetime (d : datetime)
| PList (items : list pyobj)
| PDict (items : list (string * pyobj)).

(** [k in d] on a dictionary. *)
Definition has_key {A : Type} (k : string) (d : list (string * A)) : bool :=
  existsb (fun kv => fst kv =? k) d.

(** [d.items()] of an exported dictionary. *)
Definition items (o : pyobj) : list (string * pyobj) :=
  match o with
  | PDict d => d
  | _ => []
  end.

(** Truth value of an [Optional[Dict]] or [Optional[List]]: [None] and
    the empty container are false. *)
Definition truthy_list {A : Type} (o : option (list A)) : bool :=
  match o with
  | Some (_ :: _) => true
  | _ => false
  end.

(** Running a fallible conversion over an optional value, and over a
    list from left to right. *)
Definition option_result {A B : Type} (f : A -> result B) (o : option A)
  : result (option B) :=
  match o with
  | Some a => b <- f a ;; Ok (Some b)
  | None => Ok None
  end.

Fixpoint map_result {A B : Type} (f : A -> result B) (l : list A)
  : result (list B) :=
  match l with
  | [] => Ok []
  | a :: rest =>
      b <- f a ;;
      bs <- map_result f rest ;;
      Ok (b :: bs)
  end.

(** ** MetaBase: the pydantic base class *)

Module MetaBase.

(** A model's fields in declaration order, each under its alias (the
    field name when no alias is declared), with the exported value of a
    field that is not [None]. *)
Definition fields : Type := list (string * option pyobj).

(** [MetaBase.dict]: [by_alias] is forced to [True]; of the other
    keyword arguments only [exclude_none] is modelled.  With
    [exclude_none], pydantic skips every field whose value is [None]. *)
Definition dict (exclude_none : bool) (fs : fields) : pyobj :=
  PDict
    (flat_map
       (fun f =>
          match snd f with
          | Some v => [(fst f, v)]
          | None => if exclude_none then [] else [(fst f, PNone)]
          end)
       fs).

(** pydantic reports an assertion that fails inside a validator as a
    [ValidationError]. *)
Definition validator {A : Type} (r : result A) : result A :=
  match r with
  | Raise AssertionError => Raise ValidationError
  | _ => r
  end.

Definition opt_str (o : option string) : option pyobj := option_map PStr o.
Definition opt_int (o : option Z) : option pyobj := option_map PInt o.
Definition opt_bool (o : option bool) : option pyobj := option_map PBool o.
Definition str_list (l : list string) : pyobj := PList (map PStr l).
Definition opt_str_list (o : option (list string)) : option pyobj :=
  option_map str_list o.

End MetaBase.

(** ** JSON text: [json.dumps(data, default=encoder, sort_keys=True, indent=4)] *)

Definition dquote : ascii := "034"%char.
Definition backslash : ascii := "092"%char.
Definition newline : ascii := "010"%char.

Definition hex_digit (n : N) : ascii :=
  nth (N.to_nat n)
    ["0"; "1"; "2"; "3"; "4"; "5"; "6"; "7";
     "8"; "9"; "a"; "b"; "c"; "d"; "e"; "f"]%char "0"%char.

(** One character of a string literal under [ensure_ascii=True]. *)
Definition escape_char (c : ascii) : string :=
  let n := N_of_ascii c in
  if Ascii.eqb c dquote then String backslash (String dquote "")
  else if Ascii.eqb c backslash then String backslash (String backslash "")
  else if Ascii.eqb c newline then String backslash "n"
  else if Ascii.eqb c "013"%char then String backslash "r"
  else if Ascii.eqb c "009"%char then String backslash "t"
  else if Ascii.eqb c "008"%char then String backslash "b"
  else if Ascii.eqb c "012"%char then String backslash "f"
  else if ((32 <=? n) && (n <=? 126))%N then String c ""
  else String backslash
         ("u00" ++ String (hex_digit (n / 16)) (String (hex_digit (n mod 16)) "")).

Fixpoint escape (s : string) : string :=
  match s with
  | EmptyString => EmptyString
  | String c rest => escape_char c ++ escape rest
  end.

Definition encode_str (s : string) : string :=
  String dquote (escape s ++ String dquote "").

Fixpoint spaces (n : nat) : string :=
  match n with
  | O => ""
  | S n' => String " " (spaces n')
  end.

Definition newline_indent (level : nat) : string :=
  String newline (spaces (4 * level)).

(** [sorted(dct.items())] on rendered items: insertion by key.  The
    keys of a dictionary are pairwise different, so the comparison of
    the pairs is decided by the keys. *)
Fixpoint insert_item (kv : string * string) (l : list (string * string))
  : list (string * string) :=
  match l with
  | [] => [kv]
  | kv' :: rest =>
      if String.leb (fst kv) (fst kv') then kv :: l
      else kv' :: insert_item kv rest
  end.

Fixpoint sort_items (l : list (string * string)) : list (string * string) :=
  match l with
  | [] => []
  | kv :: rest => insert_item kv (sort_items rest)
  end.

Section Encoder.

(** [serialize_datetime] is imported from [meta/common], which is not
    among the sources; it is the encoder registered for [datetime] in
    [MetaBase.Config.json_encoders], and a parameter here. *)
Variable serialize_datetime : datetime -> string.

Fixpoint encode (level : nat) (o : pyobj) {struct o} : string :=
  match o with
  | PNone => "null"
  | PBool true => "true"
  | PBool false => "false"
  | PInt z => str_int z
  | PStr s => encode_str s
  | PSpecifier g => encode_str (GradleSpecifier.__str__ g)
  | PDatetime d => encode_str (serialize_datetime d)
  | PList items =>
      match items with
      | [] => "[]"
      | _ :: _ =>
          "[" ++ newline_indent (S level)
            ++ concat ("," ++ newline_indent (S level))
                 (map (encode (S level)) items)
            ++ newline_indent level ++ "]"
      end
  | PDict items =>
      match items with
      | [] => "{}"
      | _ :: _ =>
          "{" ++ newline_indent (S level)
            ++ concat ("," ++ newline_indent (S level))
                 (map (fun kv => encode_str (fst kv) ++ ": " ++ snd kv)
                    (sort_items
                       (map (fun kv => (fst kv, encode (S level) (snd kv)))
                          items)))
            ++ newline_indent level ++ "}"
      end
  end.

Definition dumps (o : pyobj) : string := encode 0 o.

(** The items of a dictionary as [encode] renders them before it
    sorts them. *)
Definition rendered (level : nat) (d : list (string * pyobj))
  : list (string * string) :=
  map (fun kv => (fst kv, encode (S level) (snd kv))) d.

End Encoder.

(** ** The models *)

Definition META_FORMAT_VERSION : Z := 1.

Module Versioned.

Definition format_version_must_be_supported (v : Z) : result Z :=
  if (v <=? META_FORMAT_VERSION)%Z then Ok v else Raise AssertionError.

Record t : Type := mk { format_version : Z }.

(** pydantic runs a field's validators on a supplied value only; an
    omitted [formatVersion] takes the declared default,
    [META_FORMAT_VERSION]. *)
Definition supplied_format_version (formatVersion : option Z) : result Z :=
  match formatVersion with
  | Some v => MetaBase.validator (format_version_must_be_supported v)
  | None => Ok META_FORMAT_VERSION
  end.

Definition __init__ (formatVersion : option Z) : result t :=
  v <- supplied_format_version formatVersion ;;
  Ok (mk v).

Definition fields (self : t) : MetaBase.fields :=
  [("formatVersion", Some (PInt (format_version self)))].

End Versioned.

Module MojangArtifact.

(** [MojangArtifactBase] with the [path] that [MojangArtifact] adds. *)
Record t : Type := mk {
  sha1 : option string;
  size : option Z;
  url : string;
  path : option string
}.

Definition fields (self : t) : MetaBase.fields :=
  [("sha1", MetaBase.opt_str (sha1 self));
   ("size", MetaBase.opt_int (size self));
   ("url", Some (PStr (url self)));
   ("path", MetaBase.opt_str (path self))].

Definition dict (exclude_none : bool) (self : t) : pyobj :=
  MetaBase.dict exclude_none (fields self).

End MojangArtifact.

Module MojangAssets.

(** [MojangArtifactBase] with the [id] and [totalSize] that
    [MojangAssets] adds. *)
Record t : Type := mk {
  sha1 : option string;
  size : option Z;
  url : string;
  id : string;
  totalSize : Z
}.

Definition fields (self : t) : MetaBase.fields :=
  [("sha1", MetaBase.opt_str (sha1 self));
   ("size", MetaBase.opt_int (size self));
   ("url", Some (PStr (url self)));
   ("id", Some (PStr (id self)));
   ("totalSize", Some (PInt (totalSize self)))].

Definition dict (exclude_none : bool) (self : t) : pyobj :=
  MetaBase.dict exclude_none (fields self).

End MojangAssets.

Module MojangLibraryExtractRules.

Record t : Type := mk { exclude : list string }.

Definition fields (self : t) : MetaBase.fields :=
  [("exclude", Some (MetaBase.str_list (exclude self)))].

Definition dict (exclude_none : bool) (self : t) : pyobj :=
  MetaBase.dict exclude_none (fields self).

End MojangLibraryExtractRules.

Module MojangLibraryDownloads.

Record t : Type := mk {
  artifact : option MojangArtifact.t;
  classifiers : option (list (string * MojangArtifact.t))
}.

Definition fields (exclude_none : bool) (self : t) : MetaBase.fields :=
  [("artifact",
    option_map (MojangArtifact.dict exclude_none) (artifact self));
   ("classifiers",
    option_map
      (fun d =>
         PDict (map (fun kv => (fst kv, MojangArtifact.dict exclude_none (snd kv))) d))
      (classifiers self))].

Definition dict (exclude_none : bool) (self : t) : pyobj :=
  MetaBase.dict exclude_none (fields exclude_none self).

End MojangLibraryDownloads.

Module OSRule.

Definition name_must_be_os (v : string) : result string :=
  if mem v ["osx"; "osx-arm64"; "linux"; "linux-arm64"; "windows"]
  then Ok v else Raise AssertionError.

Record t : Type := mk {
  name : string;
  version : option string
}.

Definition __init__ (name : string) (version : option string) : result t :=
  name <- MetaBase.validator (name_must_be_os name) ;;
  Ok (mk name version).

Definition fields (self : t) : MetaBase.fields :=
  [("name", Some (PStr (name self)));
   ("version", MetaBase.opt_str (version self))].

Definition dict (exclude_none : bool) (self : t) : pyobj :=
  MetaBase.dict exclude_none (fields self).

End OSRule.

Module MojangRule.

Definition action_must_be_allow_disallow (v : string) : result string :=
  if mem v ["allow"; "disallow"] then Ok v else Raise AssertionError.

Record t : Type := mk {
  action : string;
  os : option OSRule.t
}.

Definition __init__ (action : string) (os : option OSRule.t) : result t :=
  action <- MetaBase.validator (action_must_be_allow_disallow action) ;;
  Ok (mk action os).

Definition fields (exclude_none : bool) (self : t) : MetaBase.fields :=
  [("action", Some (PStr (action self)));
   ("os", option_map (OSRule.dict exclude_none) (os self))].

Definition dict (exclude_none : bool) (self : t) : pyobj :=
  MetaBase.dict exclude_none (fields exclude_none self).

End MojangRule.

Module MojangRules.

Record t : Type := mk { __root__ : list MojangRule.t }.

(** Truth value of an [Optional[MojangRules]].  The class defines
    [__iter__] and [__getitem__] only; neither it nor pydantic's
    [BaseModel] defines [__bool__] or [__len__], so every instance is
    true, also one whose [__root__] is the empty list. *)
Definition truthy (o : option t) : bool :=
  match o with
  | Some _ => true
  | None => false
  end.

Definition __iter__ (self : t) : list MojangRule.t := __root__ self.

Definition __getitem__ (self : t) (item : nat) : result MojangRule.t :=
  getitem (__root__ self) item.

(** A model with a custom root type is exported as the value of its
    [__root__]. *)
Definition dict (exclude_none : bool) (self : t) : pyobj :=
  PList (map (MojangRule.dict exclude_none) (__root__ self)).

End MojangRules.

Module MojangLibrary.

Record t : Type := mk {
  extract : option MojangLibraryExtractRules.t;
  name : GradleSpecifier.t;
  downloads : option MojangLibraryDownloads.t;
  natives : option (list (string * string));
  rules : option MojangRules.t;
  arch_rules : option (list (string * list string));
  traits : option (list string)
}.

Definition with_rules (self : t) (v : option MojangRules.t) : t :=
  mk (extract self) (name self) (downloads self) (natives self)
     v (arch_rules self) (traits self).

Definition with_arch_rules (self : t)
    (v : option (list (string * list string))) : t :=
  mk (extract self) (name self) (downloads self) (natives self)
     (rules self) v (traits self).

Definition with_traits (self : t) (v : option (list string)) : t :=
  mk (extract self) (name self) (downloads self) (natives self)
     (rules self) (arch_rules self) v.

Definition fields (exclude_none : bool) (self : t) : MetaBase.fields :=
  [("extract",
    option_map (MojangLibraryExtractRules.dict exclude_none) (extract self));
   ("name", Some (PSpecifier (name self)));
   ("downloads",
    option_map (MojangLibraryDownloads.dict exclude_none) (downloads self));
   ("natives",
    option_map (fun d => PDict (map (fun kv => (fst kv, PStr (snd kv))) d))
      (natives self));
   ("rules", option_map (MojangRules.dict exclude_none) (rules self));
   ("arch_rules",
    option_map
      (fun d => PDict (map (fun kv => (fst kv, MetaBase.str_list (snd kv))) d))
      (arch_rules self));
   ("traits", MetaBase.opt_str_list (traits self))].

(** [self.rules.__root__.append(rule)] *)
Definition append_rule (self : t) (rule : MojangRule.t) : result t :=
  match rules self with
  | Some rs =>
      Ok (with_rules self
            (Some (MojangRules.mk (MojangRules.__root__ rs ++ [rule])%list)))
  | None => Raise AttributeError
  end.

(** [for arch in arches: ...] *)
Fixpoint append_arches (action : string) (arches : list string) (new_self : t)
  : result t :=
  match arches with
  | [] => Ok new_self
  | arch :: rest =>
      os <- OSRule.__init__ arch None ;;
      rule <- MojangRule.__init__ action (Some os) ;;
      new_self <- append_rule new_self rule ;;
      append_arches action rest new_self
  end.

(** [for action, arches in new_self.arch_rules.items(): ...] *)
Fixpoint append_arch_rules (items : list (string * list string)) (new_self : t)
  : result t :=
  match items with
  | [] => Ok new_self
  | (action, arches) :: rest =>
      new_self <- append_arches action arches new_self ;;
      append_arch_rules rest new_self
  end.

(** The [else] branch of [dict], from the deep copy to
    [new_self.arch_rules = None]. *)
Definition expand (self : t) : result t :=
  let new_self := self in
  match arch_rules new_self with
  | None => Raise AssertionError
  | Some items =>
      new_self <-
        (if negb (MojangRules.truthy (rules new_self)) then
           let new_self := with_rules new_self (Some (MojangRules.mk [])) in
           if has_key "disallow" items then
             rule <- MojangRule.__init__ "allow" None ;;
             append_rule new_self rule
           else Ok new_self
         else Ok new_self) ;;
      new_self <- append_arch_rules items new_self ;;
      Ok (with_arch_rules new_self None)
  end.

(** [dict] as a subclass inherits it: [extra] are the fields the
    subclass declares.  The final [new_self.dict] re-enters the method
    with [arch_rules] equal to [None], hence takes the first branch. *)
Definition dict_with (extra : MetaBase.fields) (exclude_none : bool) (self : t)
  : result pyobj :=
  if negb (truthy_list (arch_rules self)) then
    Ok (MetaBase.dict exclude_none (fields exclude_none self ++ extra)%list)
  else
    new_self <- expand self ;;
    Ok (MetaBase.dict exclude_none (fields exclude_none new_self ++ extra)%list).

Definition dict (exclude_none : bool) (self : t) : result pyobj :=
  dict_with [] exclude_none self.

Definition add_archdependent_trait (self : t) : t :=
  if GradleSpecifier.is_archdependent (name self) then
    match traits self with
    | Some ts =>
        if truthy_list (Some ts)
        then with_traits self (Some (ts ++ ["ArchDependent"])%list)
        else with_traits self (Some ["ArchDependent"])
    | None => with_traits self (Some ["ArchDependent"])
    end
  else self.

End MojangLibrary.

Module Library.

(** [Library(MojangLibrary)]: the inherited fields and methods, and two
    fields of its own. *)
Record t : Type := mk {
  base : MojangLibrary.t;
  url : option string;
  mmcHint : option string
}.

Definition own_fields (self : t) : MetaBase.fields :=
  [("url", MetaBase.opt_str (url self));
   ("MMC-hint", MetaBase.opt_str (mmcHint self))].

Definition dict (exclude_none : bool) (self : t) : result pyobj :=
  MojangLibrary.dict_with (own_fields self) exclude_none (base self).

Definition add_archdependent_trait (self : t) : t :=
  mk (MojangLibrary.add_archdependent_trait (base self)) (url self)
     (mmcHint self).

End Library.

Module Dependency.

Record t : Type := mk {
  uid : string;
  equals : option string;
  suggests : option string
}.

Definition fields (self : t) : MetaBase.fields :=
  [("uid", Some (PStr (uid self)));
   ("equals", MetaBase.opt_str (equals self));
   ("suggests", MetaBase.opt_str (suggests self))].

Definition dict (exclude_none : bool) (self : t) : pyobj :=
  MetaBase.dict exclude_none (fields self).

End Dependency.

Module MetaVersion.

(** The fields [MetaVersion] declares; [format_version] is inherited
    from [Versioned]. *)
Record body : Type := mk_body {
  name : string;
  version : string;
  uid : string;
  type : option string;
  order : option Z;
  volatile : option bool;
  requires : option (list Dependency.t);
  conflicts : option (list Dependency.t);
  libraries : option (list Library.t);
  asset_index : option MojangAssets.t;
  maven_files : option (list Library.t);
  main_jar : option Library.t;
  jar_mods : option (list Library.t);
  main_class : option string;
  applet_class : option string;
  minecraft_arguments : option string;
  release_time : option datetime;
  compatible_java_majors : option (list Z);
  additional_traits : option (list string);
  additional_tweakers : option (list string)
}.

Record t : Type := mk {
  versioned : Versioned.t;
  own : body
}.

Definition __init__ (formatVersion : option Z) (b : body) : result t :=
  v <- Versioned.__init__ formatVersion ;;
  Ok (mk v b).

Definition dependencies (exclude_none : bool) (l : list Dependency.t) : pyobj :=
  PList (map (Dependency.dict exclude_none) l).

Definition library_list (exclude_none : bool) (l : list Library.t)
  : result pyobj :=
  ds <- map_result (Library.dict exclude_none) l ;;
  Ok (PList ds).

Definition fields (exclude_none : bool) (self : t) : result MetaBase.fields :=
  let b := own self in
  libraries <- option_result (library_list exclude_none) (libraries b) ;;
  maven_files <- option_result (library_list exclude_none) (maven_files b) ;;
  main_jar <- option_result (Library.dict exclude_none) (main_jar b) ;;
  jar_mods <- option_result (library_list exclude_none) (jar_mods b) ;;
  Ok (Versioned.fields (versioned self) ++
      [("name", Some (PStr (name b)));
       ("version", Some (PStr (version b)));
       ("uid", Some (PStr (uid b)));
       ("type", MetaBase.opt_str (type b));
       ("order", MetaBase.opt_int (order b));
       ("volatile", MetaBase.opt_bool (volatile b));
       ("requires", option_map (dependencies exclude_none) (requires b));
       ("conflicts", option_map (dependencies exclude_none) (conflicts b));
       ("libraries", libraries);
       ("assetIndex",
        option_map (MojangAssets.dict exclude_none) (asset_index b));
       ("mavenFiles", maven_files);
       ("mainJar", main_jar);
       ("jarMods", jar_mods);
       ("mainClass", MetaBase.opt_str (main_class b));
       ("appletClass", MetaBase.opt_str (applet_class b));
       ("minecraftArguments", MetaBase.opt_str (minecraft_arguments b));
       ("releaseTime", option_map PDatetime (release_time b));
       ("compatibleJavaMajors",
        option_map (fun l => PList (map PInt l)) (compatible_java_majors b));
       ("+traits", MetaBase.opt_str_list (additional_traits b));
       ("+tweakers", MetaBase.opt_str_list (additional_tweakers b))])%list.

Definition dict (exclude_none : bool) (self : t) : result pyobj :=
  fs <- fields exclude_none self ;;
  Ok (MetaBase.dict exclude_none fs).

(** [MetaBase.json]: the export with [exclude_none=True] and
    [by_alias=True], rendered with [sort_keys=True] and [indent=4]. *)
Definition json (serialize_datetime : datetime -> string) (self : t)
  : result string :=
  data <- dict true self ;;
  Ok (dumps serialize_datetime data).

End MetaVersion.

Module MetaPackage.

Record body : Type := mk_body {
  name : string;
  uid : string;
  recommended : option (list string);
  authors : option (list string);
  description : option string;
  project_url : option string
}.

Record t : Type := mk {
  versioned : Versioned.t;
  own : body
}.

Definition __init__ (formatVersion : option Z) (b : body) : result t :=
  v <- Versioned.__init__ formatVersion ;;
  Ok (mk v b).

Definition fields (self : t) : MetaBase.fields :=
  let b := own self in
  (Versioned.fields (versioned self) ++
   [("name", Some (PStr (name b)));
    ("uid", Some (PStr (uid b)));
    ("recommended", MetaBase.opt_str_list (recommended b));
    ("authors", MetaBase.opt_str_list (authors b));
    ("description", MetaBase.opt_str (description b));
    ("projectUrl", MetaBase.opt_str (project_url b))])%list.

Definition dict (exclude_none : bool) (self : t) : pyobj :=
  MetaBase.dict exclude_none (fields self).

Definition json (serialize_datetime : datetime -> string) (self : t) : string :=
  dumps serialize_datetime (dict true self).

End MetaPackage.


(** ** The statements of the specification

    Definitions that follow the specification's wording, to be compared
    with the functions above. *)

Module Spec.

(** "Split [s] on the first [@] into body and optional extension." *)
Fixpoint partition_first (sep : ascii) (s : string) : string * option string :=
  match s with
  | EmptyString => (EmptyString, None)
  | String c rest =>
      if Ascii.eqb c sep then (EmptyString, Some rest)
      else let (body, ext) := partition_first sep rest in (String c body, ext)
  end.

Definition body (s : string) : string := fst (partition_first "@" s).

Definition extension_suffix (s : string) : option string :=
  snd (partition_first "@" s).

Definition component_count (s : string) : nat :=
  List.length (split ":" (body s)).

(** A valid coordinate string: the body has 3 or 4 components. *)
Definition valid (s : string) : Prop :=
  component_count s = 3 \/ component_count s = 4.

(** "Fewer than 3 or more than 4 components." *)
Definition malformed (s : string) : Prop :=
  component_count s < 3 \/ 4 < component_count s.

(** The extension-omission rule: a suffix is written iff the extension
    is not ["jar"]. *)
Definition canonical (s : string) : Prop :=
  match extension_suffix s with
  | Some e => e <> "jar"
  | None => True
  end.

Definition raises {A : Type} (r : result A) : Prop :=
  exists e, r = Raise e.

Definition parse_fails_iff_malformed (s : string) : Prop :=
  raises (GradleSpecifier.from_string s) <-> malformed s.

Definition roundtrip (s : string) : Prop :=
  exists g, GradleSpecifier.from_string s = Ok g
            /\ GradleSpecifier.__str__ g = s.

Definition canonical_roundtrip (s : string) : Prop :=
  valid s -> canonical s -> roundtrip s.

(** "artifact-version[-classifier].extension", the classifier segment
    present iff a classifier is set. *)
Definition filename (g : GradleSpecifier.t) : string :=
  GradleSpecifier.artifact g ++ "-" ++ GradleSpecifier.version g
    ++ match GradleSpecifier.classifier g with
       | Some c => "-" ++ c
       | None => ""
       end
    ++ "." ++ GradleSpecifier.extension g.

(** [needle] occurs in [hay] as a substring. *)
Definition substring_of (needle hay : string) : Prop :=
  exists before after, hay = before ++ needle ++ after.

(** Rule synthesis, section 4.2: the explicit rules (the empty list if
    none), a blanket allow rule in front when that list is empty and
    the map has the [disallow] action, then one rule per action and
    arch name, in map order and list order. *)
Definition allow_rule : MojangRule.t := MojangRule.mk "allow" None.

Definition arch_rule (action arch : string) : MojangRule.t :=
  MojangRule.mk action (Some (OSRule.mk arch None)).

Definition expansion (items : list (string * list string))
  : list MojangRule.t :=
  flat_map (fun kv => map (arch_rule (fst kv)) (snd kv)) items.

Definition explicit_rules (o : option MojangRules.t) : list MojangRule.t :=
  match o with
  | Some rs => MojangRules.__root__ rs
  | None => []
  end.

Definition synthesize (explicit : list MojangRule.t)
    (items : list (string * list string)) : list MojangRule.t :=
  (match explicit with
   | [] => if has_key "disallow" items then [allow_rule] else []
   | _ :: _ => []
   end ++ explicit ++ expansion items)%list.

(** Actions and arch names within the enumerations of the data model. *)
Definition well_formed (items : list (string * list string)) : Prop :=
  Forall
    (fun kv =>
       mem (fst kv) ["allow"; "disallow"] = true
       /\ Forall
            (fun arch =>
               mem arch ["osx"; "osx-arm64"; "linux"; "linux-arm64"; "windows"]
               = true)
            (snd kv))
    items.

(** Two exported values hold the same logical document: they differ
    at most in the order in which the entries of their dictionaries
    were inserted, at any depth. *)
#[warnings="-register-all"]
Inductive same_document : pyobj -> pyobj -> Prop :=
| same_value (o : pyobj) : same_document o o
| same_list (l1 l2 : list pyobj) :
    Forall2 same_document l1 l2 ->
    same_document (PList l1) (PList l2)
| same_dict (d1 d d2 : list (string * pyobj)) :
    NoDup (map fst d1) ->
    Permutation d1 d ->
    Forall2 (fun a b => fst a = fst b /\ same_document (snd a) (snd b)) d d2 ->
    same_document (PDict d1) (PDict d2).

(** No [None] anywhere in an exported value. *)
Fixpoint null_free (o : pyobj) : bool :=
  match o with
  | PNone => false
  | PList l => forallb null_free l
  | PDict d => forallb (fun kv => null_free (snd kv)) d
  | _ => true
  end.

(** Keys in the order of Python's string comparison. *)
Definition key_le (a b : string * string) : Prop :=
  String.leb (fst a) (fst b) = true.

(** The traits of a descriptor as a list, empty when absent. *)
Definition trait_list (o : option (list string)) : list string :=
  match o with
  | Some ts => ts
  | None => []
  end.

End Spec.

(** ** Sample descriptors and documents *)

Module Sample.

Definition lwjgl : GradleSpecifier.t :=
  GradleSpecifier.mk "org.lwjgl" "lwjgl" "3.3.1" None "jar".

(** [MojangLibrary(name="org.lwjgl:lwjgl:3.3.1", rules=rules,
    arch_rules=arch_rules)] *)
Definition library (rules : option MojangRules.t)
    (arch_rules : option (list (string * list string))) : MojangLibrary.t :=
  MojangLibrary.mk None lwjgl None None rules arch_rules None.

Definition disallow_osx_arm64 : list (string * list string) :=
  [("disallow", ["osx-arm64"])].

(** A version document whose only library is [lib]. *)
Definition version_with (lib : MojangLibrary.t) : MetaVersion.t :=
  MetaVersion.mk (Versioned.mk META_FORMAT_VERSION)
    (MetaVersion.mk_body "LWJGL 3" "3.3.1" "org.lwjgl3"
       None None None None None
       (Some [Library.mk lib None None])
       None None None None None None None None None None None).

End Sample.

(** ** Vocabulary of the further properties *)

Module Further.

(** [c in s] for one character. *)
Fixpoint has_char (c : ascii) (s : string) : bool :=
  match s with
  | EmptyString => false
  | String d rest => Ascii.eqb d c || has_char c rest
  end.

(** A component that contains neither separator of the coordinate
    format. *)
Definition clean (s : string) : Prop :=
  has_char ":" s = false /\ has_char "@" s = false.

(** The classifier as [__str__] and [filename] see it: the empty
    string counts as none. *)
Definition effective_classifier (o : option string) : option string :=
  if truthy_str o then o else None.

(** Every character of [s] satisfies [p]. *)
Fixpoint all_chars (p : ascii -> bool) (s : string) : bool :=
  match s with
  | EmptyString => true
  | String c rest => p c && all_chars p rest
  end.

(** Printable ASCII, space to tilde. *)
Definition printable (c : ascii) : bool :=
  ((32 <=? N_of_ascii c) && (N_of_ascii c <=? 126))%N.

Definition printable_or_newline (c : ascii) : bool :=
  printable c || Ascii.eqb c newline.

Definition valid_action (action : string) : bool :=
  mem action ["allow"; "disallow"].

Definition valid_os (name : string) : bool :=
  mem name ["osx"; "osx-arm64"; "linux"; "linux-arm64"; "windows"].

(** An entry of [arch_rules] over which the loops of
    [MojangLibrary.dict] run without a validation error: it has no
    arch names, or a valid action and valid arch names only. *)
Definition entry_ok (kv : string * list string) : bool :=
  match snd kv with
  | [] => true
  | _ :: _ => valid_action (fst kv) && forallb valid_os (snd kv)
  end.

(** The keys a version document and a package document may export. *)
Definition version_keys : list string :=
  ["formatVersion"; "name"; "version"; "uid"; "type"; "order"; "volatile";
   "requires"; "conflicts"; "libraries"; "assetIndex"; "mavenFiles";
   "mainJar"; "jarMods"; "mainClass"; "appletClass"; "minecraftArguments";
   "releaseTime"; "compatibleJavaMajors"; "+traits"; "+tweakers"].

Definition package_keys : list string :=
  ["formatVersion"; "name"; "uid"; "recommended"; "authors"; "description";
   "projectUrl"].

(** The elements of an exported list. *)
Definition elements (o : pyobj) : list pyobj :=
  match o with
  | PList l => l
  | _ => []
  end.

(** No string occurs twice. *)
Fixpoint distinct (l : list string) : bool :=
  match l with
  | [] => true
  | x :: rest => negb (mem x rest) && distinct rest
  end.

(** A field that holds a value, and an exported entry that is not
    [None]. *)
Definition is_set (f : string * option pyobj) : bool :=
  match snd f with
  | Some _ => true
  | None => false
  end.

Definition not_none (kv : string * pyobj) : bool :=
  match snd kv with
  | PNone => false
  | _ => true
  end.

End Further.

(** * Properties *)

Lemma Ok_inj {A : Type} (a b : A) : Ok a = Ok b -> a = b.
Proof. intros H. now injection H. Qed.

(** ** Strings *)

Lemma split_not_nil (sep : ascii) (s : string) : split sep s <> [].
Proof.
  induction s as [|c rest IH]; simpl.
  - discriminate.
  - destruct (Ascii.eqb c sep); [discriminate|].
    destruct (split sep rest); [contradiction|discriminate].
Qed.

(** Joining the pieces with the separator gives the string back. *)
Lemma concat_split (sep : ascii) (s : string) :
  concat (String sep "") (split sep s) = s.
Proof.
  induction s as [|c rest IH]; simpl; [reflexivity|].
  destruct (Ascii.eqb_spec c sep) as [->|Hne].
  - pose proof (split_not_nil sep rest) as Hnil.
    simpl. destruct (split sep rest) as [|p ps] eqn:E; [contradiction|].
    simpl. now rewrite <- IH.
  - pose proof (split_not_nil sep rest) as Hnil.
    destruct (split sep rest) as [|p ps] eqn:E; [contradiction|].
    rewrite <- IH. simpl. destruct ps; reflexivity.
Qed.

Lemma split_singleton (sep : ascii) (s p : string) :
  split sep s = [p] -> p = s.
Proof.
  intros H. rewrite <- (concat_split sep s), H. reflexivity.
Qed.

(** [split] cuts at the first separator and goes on in the rest. *)
Lemma split_partition_first (sep : ascii) (s : string) :
  split sep s =
  fst (Spec.partition_first sep s)
    :: match snd (Spec.partition_first sep s) with
       | Some rest => split sep rest
       | None => []
       end.
Proof.
  induction s as [|c rest IH]; simpl; [reflexivity|].
  destruct (Ascii.eqb c sep); simpl; [reflexivity|].
  rewrite IH. destruct (Spec.partition_first sep rest) as [b e]. reflexivity.
Qed.

Lemma append_assoc (a b c : string) : (a ++ b) ++ c = a ++ (b ++ c).
Proof. induction a; simpl; congruence. Qed.

Lemma append_empty_r (a : string) : a ++ "" = a.
Proof. induction a; simpl; congruence. Qed.

Lemma prefix_iff (p s : string) :
  prefix p s = true <-> exists t, s = p ++ t.
Proof.
  revert p. induction s as [|c s IH]; intros [|d p]; simpl.
  - split; [exists ""; reflexivity|reflexivity].
  - split; [discriminate|]. intros [t Ht]. discriminate.
  - split; [eexists; reflexivity|reflexivity].
  - destruct (ascii_dec d c) as [->|Hne].
    + rewrite IH. split; intros [t Ht]; exists t; congruence.
    + split; [discriminate|]. intros [t Ht]. congruence.
Qed.

Lemma contains_iff (needle hay : string) :
  contains needle hay = true <-> Spec.substring_of needle hay.
Proof.
  unfold Spec.substring_of.
  induction hay as [|c hay IH]; cbn [contains].
  - rewrite orb_false_r, prefix_iff. split.
    + intros [t Ht]. exists "", t. exact Ht.
    + intros [[|b before] [after H]]; [eexists; exact H|discriminate].
  - rewrite orb_true_iff, IH, prefix_iff. split.
    + intros [[t Ht]|[before [after H]]].
      * exists "", t. exact Ht.
      * exists (String c before), after. simpl. congruence.
    + intros [[|b before] [after H]].
      * left. eexists; exact H.
      * right. exists before, after. simpl in H. congruence.
Qed.

(** [replace] rewrites exactly the occurrences of [old], in place. *)
Lemma replace_get (old new : ascii) (s : string) (n : nat) :
  get n (replace old new s) =
  option_map (fun c => if Ascii.eqb c old then new else c) (get n s).
Proof.
  revert n. induction s as [|c s IH]; intros [|n]; simpl; auto.
Qed.

(** ** GradleSpecifier: parsing *)

Section Parsing.

Import GradleSpecifier.

Lemma split_at_body (v : string) :
  exists tail, split "@" v = Spec.body v :: tail.
Proof.
  rewrite split_partition_first. unfold Spec.body. eexists; reflexivity.
Qed.

(** What [from_string] computes once the components are known. *)
Lemma from_string_components (v : string) :
  from_string v =
  match split ":" (Spec.body v) with
  | g :: a :: ver :: rest =>
      Ok (__init__ g a ver
            (match rest with [c] => Some c | _ => None end)
            (match split "@" v with [_; e] => Some e | _ => None end))
  | _ => Raise IndexError
  end.
Proof.
  unfold from_string. destruct (split_at_body v) as [tail ->].
  cbn [getitem nth_error bind].
  destruct (split ":" (Spec.body v)) as [|g [|a [|ver rest]]]; try reflexivity.
  cbn [getitem nth_error bind].
  assert (Hext :
    (if Nat.eqb (List.length (Spec.body v :: tail)) 2
     then e <- getitem (Spec.body v :: tail) 1 ;; Ok (Some e)
     else Ok None)
    = Ok (match Spec.body v :: tail with [_; e] => Some e | _ => None end)).
  { destruct tail as [|e [|e' tail]]; reflexivity. }
  rewrite Hext. cbn [bind].
  destruct rest as [|c [|c' rest]]; reflexivity.
Qed.

Lemma from_string_too_few (v : string) :
  from_string v = Raise IndexError <-> Spec.component_count v < 3.
Proof.
  rewrite from_string_components. unfold Spec.component_count.
  destruct (split ":" (Spec.body v)) as [|g [|a [|ver rest]]]; simpl;
    split; intros H; try reflexivity; try lia; discriminate.
Qed.

Lemma from_string_raises (v : string) :
  Spec.raises (from_string v) <-> Spec.component_count v < 3.
Proof.
  rewrite <- from_string_too_few. unfold Spec.raises.
  split; [|intros H; eexists; exact H].
  intros [e He]. rewrite from_string_components in *.
  destruct (split ":" (Spec.body v)) as [|g [|a [|ver rest]]];
    try reflexivity; discriminate.
Qed.

(** C2, as the specification states it, fails: a body of five
    components is parsed, not rejected. *)
Lemma C2_five_components_accepted :
  ~ Spec.parse_fails_iff_malformed "a:b:c:d:e".
Proof.
  unfold Spec.parse_fails_iff_malformed. intros [_ H].
  destruct H as [e He].
  - right. vm_compute. lia.
  - vm_compute in He. discriminate.
Qed.

(** C2, amended: [from_string] fails, with the [IndexError] of reading
    a missing component, exactly when the body before the first [@]
    splits on [:] into fewer than 3 components; a body of more than 4
    components is accepted, read from its first three components, with
    no classifier. *)
Theorem C2_from_string_fails_iff_too_few (v : string) :
  (from_string v = Raise IndexError <-> Spec.component_count v < 3)
  /\ (Spec.raises (from_string v) <-> Spec.component_count v < 3)
  /\ (4 < Spec.component_count v ->
      exists g, from_string v = Ok g
        /\ classifier g = None
        /\ [group g; artifact g; version g]
           = firstn 3 (split ":" (Spec.body v))).
Proof.
  split; [apply from_string_too_few|].
  split; [apply from_string_raises|].
  unfold Spec.component_count. rewrite from_string_components.
  destruct (split ":" (Spec.body v)) as [|g [|a [|ver rest]]]; simpl;
    try lia.
  intros H. eexists. split; [reflexivity|].
  destruct rest as [|c [|c' rest]]; simpl in *; try lia.
  split; reflexivity.
Qed.

Lemma C2_from_string_fails_iff_too_few_witness :
  exists g, from_string "a:b:c:d:e" = Ok g
    /\ classifier g = None
    /\ [group g; artifact g; version g]
       = firstn 3 (split ":" (Spec.body "a:b:c:d:e")).
Proof.
  apply (proj2 (proj2 (C2_from_string_fails_iff_too_few "a:b:c:d:e"))).
  vm_compute. lia.
Defined.

(** ** GradleSpecifier: rendering after parsing *)

(** C3, as the specification states it, fails on a string with two [@]
    (the parser drops everything after the first) and on one with an
    empty fourth component (the renderer drops the trailing colon). *)
Lemma C3_roundtrip_fails :
  ~ Spec.canonical_roundtrip "a:b:c@x@y"
  /\ ~ Spec.canonical_roundtrip "a:b:c:".
Proof.
  split; intros H.
  - destruct H as [g [Hg Hs]].
    + left. reflexivity.
    + vm_compute. discriminate.
    + vm_compute in Hg. injection Hg as <-. vm_compute in Hs. discriminate.
  - destruct H as [g [Hg Hs]].
    + right. reflexivity.
    + exact I.
    + vm_compute in Hg. injection Hg as <-. vm_compute in Hs. discriminate.
Qed.

Lemma split_at_most_two (v : string) :
  List.length (split "@" v) <= 2 ->
  split "@" v =
  Spec.body v :: match Spec.extension_suffix v with
                 | Some e => [e]
                 | None => []
                 end.
Proof.
  rewrite split_partition_first. unfold Spec.body, Spec.extension_suffix.
  destruct (snd (Spec.partition_first "@" v)) as [e|]; [|reflexivity].
  simpl. intros H.
  pose proof (split_not_nil "@" e) as Hnil.
  destruct (split "@" e) as [|x [|y l]] eqn:E; try contradiction.
  - now rewrite (split_singleton _ _ _ E).
  - simpl in H. lia.
Qed.

(** C3, amended: for every string with at most one [@] whose body has
    3 components, or 4 with a non-empty fourth, and whose extension
    suffix, when written, is not ["jar"], parsing and rendering returns
    the string; the extension parsed is the text after the [@], and
    ["jar"] when there is none. *)
Theorem C3_roundtrip_single_at (s : string) :
  List.length (split "@" s) <= 2 ->
  Spec.valid s ->
  nth_error (split ":" (Spec.body s)) 3 <> Some "" ->
  Spec.canonical s ->
  exists g, from_string s = Ok g
    /\ __str__ g = s
    /\ extension g = match Spec.extension_suffix s with
                     | Some e => e
                     | None => "jar"
                     end.
Proof.
  intros Hat Hvalid Hcls Hcanon.
  pose proof (concat_split "@" s) as Hs.
  pose proof (concat_split ":" (Spec.body s)) as Hb.
  rewrite from_string_components.
  rewrite (split_at_most_two s Hat) in *.
  unfold Spec.valid, Spec.component_count, Spec.canonical in *.
  destruct (split ":" (Spec.body s)) as [|g [|a [|ver [|c [|c' rest]]]]];
    simpl in Hvalid; try lia.
  - (* three components *)
    eexists. split; [reflexivity|].
    destruct (Spec.extension_suffix s) as [e|]; unfold __str__; simpl.
    + apply String.eqb_neq in Hcanon. rewrite Hcanon. simpl.
      split; [|reflexivity].
      rewrite <- Hs, <- Hb. simpl.
      repeat (rewrite ?append_assoc; simpl). reflexivity.
    + split; [|reflexivity].
      rewrite <- Hs, <- Hb. simpl.
      repeat (rewrite ?append_assoc, ?append_empty_r; simpl). reflexivity.
  - (* four components *)
    assert (Hc : (c =? "") = false).
    { apply String.eqb_neq. intros ->. apply Hcls. reflexivity. }
    eexists. split; [reflexivity|].
    destruct (Spec.extension_suffix s) as [e|]; unfold __str__; simpl;
      rewrite Hc; simpl.
    + apply String.eqb_neq in Hcanon. rewrite Hcanon. simpl.
      split; [|reflexivity].
      rewrite <- Hs, <- Hb. simpl.
      repeat (rewrite ?append_assoc; simpl). reflexivity.
    + split; [|reflexivity].
      rewrite <- Hs, <- Hb. simpl.
      repeat (rewrite ?append_assoc, ?append_empty_r; simpl). reflexivity.
Qed.

Lemma C3_roundtrip_single_at_witness :
  exists g, from_string "net.minecraft:launchwrapper:1.5:natives@zip" = Ok g
    /\ __str__ g = "net.minecraft:launchwrapper:1.5:natives@zip"
    /\ extension g = "zip".
Proof.
  apply (C3_roundtrip_single_at "net.minecraft:launchwrapper:1.5:natives@zip").
  - vm_compute. lia.
  - right. reflexivity.
  - vm_compute. discriminate.
  - vm_compute. discriminate.
Defined.

End Parsing.

(** ** GradleSpecifier: file names and repository paths *)

Section Paths.

Import GradleSpecifier.

(** C5, as the specification states it, fails for a classifier that is
    set to the empty string: the code tests the classifier's truth
    value, so no [-] segment is written. *)
Lemma C5_empty_classifier_segment :
  from_string "a:b:c:" = Ok (mk "a" "b" "c" (Some "") "jar")
  /\ filename (mk "a" "b" "c" (Some "") "jar") = "b-c.jar"
  /\ filename (mk "a" "b" "c" (Some "") "jar")
     <> Spec.filename (mk "a" "b" "c" (Some "") "jar").
Proof.
  split; [reflexivity|]. split; [reflexivity|].
  vm_compute. discriminate.
Qed.

(** C5, amended: [filename] is artifact-version[-classifier].extension
    with the classifier segment present iff a classifier is set and is
    not the empty string; [path] is the group with every [.] replaced
    by [/], then [/artifact/version/], then the file name; and the
    launchwrapper coordinate has the path of the specification. *)
Theorem C5_filename_and_path (g : t) :
  filename g =
    artifact g ++ "-" ++ version g
      ++ match classifier g with
         | Some c => if c =? "" then "" else "-" ++ c
         | None => ""
         end
      ++ "." ++ extension g
  /\ (truthy_str (classifier g) = true -> filename g = Spec.filename g)
  /\ (classifier g = None -> filename g = Spec.filename g)
  /\ path g =
       replace "." "/" (group g) ++ "/" ++ artifact g ++ "/" ++ version g
         ++ "/" ++ filename g
  /\ (forall n, get n (replace "." "/" (group g)) =
                option_map (fun c => if Ascii.eqb c "." then "/"%char else c)
                  (get n (group g)))
  /\ (v <- from_string "net.minecraft:launchwrapper:1.5" ;; Ok (path v))
     = Ok "net/minecraft/launchwrapper/1.5/launchwrapper-1.5.jar"
  /\ (v <- from_string "net.minecraft:launchwrapper:1.5:natives@zip" ;;
      Ok (filename v))
     = Ok "launchwrapper-1.5-natives.zip".
Proof.
  unfold filename, Spec.filename, path, base.
  repeat split; try reflexivity.
  - destruct (classifier g) as [c|]; simpl; [|reflexivity].
    destruct (c =? ""); simpl; repeat (rewrite ?append_assoc; simpl);
      reflexivity.
  - destruct (classifier g) as [c|]; simpl; [|discriminate].
    intros ->. reflexivity.
  - intros ->. reflexivity.
  - repeat (rewrite ?append_assoc; simpl). reflexivity.
  - intros n. apply replace_get.
Qed.

Lemma C5_filename_and_path_witness :
  filename (mk "net.minecraft" "launchwrapper" "1.5" (Some "natives") "zip")
  = Spec.filename
      (mk "net.minecraft" "launchwrapper" "1.5" (Some "natives") "zip").
Proof.
  apply (proj1 (proj2 (C5_filename_and_path
    (mk "net.minecraft" "launchwrapper" "1.5" (Some "natives") "zip")))).
  reflexivity.
Defined.

End Paths.

(** ** GradleSpecifier: architecture dependence *)

Section ArchDependence.

Import GradleSpecifier.

(** C8: [is_archdependent] holds iff the group contains ["lwjgl"] or
    the artifact contains ["objc"]; so it holds for the group
    ["org.lwjgl"] and for every artifact that contains ["objc"], and
    for the group ["net.minecraftforge"], which does not contain
    ["lwjgl"], it is decided by the artifact alone: it is false unless
    the artifact contains ["objc"]. *)
Theorem C8_is_archdependent_iff (g : t) :
  (is_archdependent g = true <->
     Spec.substring_of "lwjgl" (group g)
     \/ Spec.substring_of "objc" (artifact g))
  /\ (group g = "org.lwjgl" -> is_archdependent g = true)
  /\ (Spec.substring_of "objc" (artifact g) -> is_archdependent g = true)
  /\ (group g = "net.minecraftforge" ->
      is_archdependent g = contains "objc" (artifact g))
  /\ (group g = "net.minecraftforge" ->
      ~ Spec.substring_of "objc" (artifact g) ->
      is_archdependent g = false).
Proof.
  assert (Hiff : is_archdependent g = true <->
     Spec.substring_of "lwjgl" (group g)
     \/ Spec.substring_of "objc" (artifact g)).
  { rewrite <- !contains_iff. unfold is_archdependent.
    destruct (contains "lwjgl" (group g)), (contains "objc" (artifact g));
      intuition discriminate. }
  split; [exact Hiff|].
  split; [|split; [|split]].
  - intros Hg. apply Hiff. left. rewrite Hg. exists "org.", "". reflexivity.
  - intros Ha. apply Hiff. right. exact Ha.
  - intros Hg. unfold is_archdependent. rewrite Hg.
    destruct (contains "objc" (artifact g)); reflexivity.
  - intros Hg Ha. unfold is_archdependent. rewrite Hg.
    rewrite <- contains_iff in Ha.
    destruct (contains "objc" (artifact g)); [now elim Ha|reflexivity].
Qed.

Lemma C8_is_archdependent_iff_witness :
  is_archdependent (mk "org.lwjgl" "lwjgl" "3.2.2" None "jar") = true
  /\ is_archdependent (mk "ca.weblite" "java-objc-bridge" "1.0.0" None "jar")
     = true
  /\ is_archdependent (mk "net.minecraftforge" "forge" "1.12.2" None "jar")
     = false.
Proof.
  split; [|split].
  - apply (proj1 (proj2 (C8_is_archdependent_iff
      (mk "org.lwjgl" "lwjgl" "3.2.2" None "jar")))).
    reflexivity.
  - apply (proj1 (proj2 (proj2 (C8_is_archdependent_iff
      (mk "ca.weblite" "java-objc-bridge" "1.0.0" None "jar"))))).
    exists "java-", "-bridge". reflexivity.
  - apply (proj2 (proj2 (proj2 (proj2 (C8_is_archdependent_iff
      (mk "net.minecraftforge" "forge" "1.12.2" None "jar")))))).
    + reflexivity.
    + intros H. apply contains_iff in H. vm_compute in H. discriminate.
Defined.

End ArchDependence.

(** ** GradleSpecifier: comparison and hashing *)

Section Comparison.

Import GradleSpecifier.

Variable hash : string -> Z.

(** C10: [__eq__], [__lt__], [__gt__] and [__hash__] look at the string
    forms only.  A coordinate equals every value whose string form is
    its own, a plain string included; two coordinates are equal iff
    their string forms are; equal coordinates have equal hashes. *)
Theorem C10_comparison_by_string (a b : t) (other : operand) :
  (__eq__ a other = true <-> __str__ a = str other)
  /\ __eq__ a (OStr (__str__ a)) = true
  /\ (__eq__ a (OSpecifier b) = true <-> __str__ a = __str__ b)
  /\ __lt__ a other = String.ltb (__str__ a) (str other)
  /\ __gt__ a other = String.ltb (str other) (__str__ a)
  /\ __hash__ hash a = hash (__str__ a)
  /\ (__eq__ a (OSpecifier b) = true -> __hash__ hash a = __hash__ hash b).
Proof.
  unfold __eq__, __lt__, __gt__, __hash__. simpl.
  repeat split; try (apply String.eqb_eq; assumption).
  - apply String.eqb_eq. reflexivity.
  - intros H. apply String.eqb_eq in H. now rewrite H.
Qed.

End Comparison.

(** Two coordinates that differ as records (no classifier, the empty
    classifier) and compare equal, with equal hashes. *)
Lemma C10_comparison_by_string_witness :
  GradleSpecifier.__hash__ (fun s => Z.of_nat (String.length s))
    (GradleSpecifier.mk "a" "b" "c" None "jar")
  = GradleSpecifier.__hash__ (fun s => Z.of_nat (String.length s))
      (GradleSpecifier.mk "a" "b" "c" (Some "") "jar").
Proof.
  apply (proj2 (proj2 (proj2 (proj2 (proj2 (proj2
    (C10_comparison_by_string (fun s => Z.of_nat (String.length s))
       (GradleSpecifier.mk "a" "b" "c" None "jar")
       (GradleSpecifier.mk "a" "b" "c" (Some "") "jar")
       (GradleSpecifier.OStr "")))))))).
  reflexivity.
Defined.

(** ** The format-version gate *)

(** C6: a document built or parsed with a [formatVersion] above
    [META_FORMAT_VERSION] is rejected, one at the maximum (or below) is
    accepted; the version just above the maximum is rejected. *)
Theorem C6_format_version_gate
    (v : Z) (p : MetaPackage.body) (m : MetaVersion.body) :
  ((META_FORMAT_VERSION < v)%Z <->
     Versioned.__init__ (Some v) = Raise ValidationError)
  /\ ((META_FORMAT_VERSION < v)%Z <->
     MetaPackage.__init__ (Some v) p = Raise ValidationError)
  /\ ((META_FORMAT_VERSION < v)%Z <->
     MetaVersion.__init__ (Some v) m = Raise ValidationError)
  /\ ((v <= META_FORMAT_VERSION)%Z <->
     MetaPackage.__init__ (Some v) p = Ok (MetaPackage.mk (Versioned.mk v) p))
  /\ ((v <= META_FORMAT_VERSION)%Z <->
     MetaVersion.__init__ (Some v) m = Ok (MetaVersion.mk (Versioned.mk v) m))
  /\ Versioned.__init__ (Some META_FORMAT_VERSION)
     = Ok (Versioned.mk META_FORMAT_VERSION)
  /\ Versioned.__init__ (Some (META_FORMAT_VERSION + 1)%Z)
     = Raise ValidationError
  /\ MetaPackage.__init__ (Some (META_FORMAT_VERSION + 1)%Z) p
     = Raise ValidationError
  /\ MetaVersion.__init__ (Some (META_FORMAT_VERSION + 1)%Z) m
     = Raise ValidationError.
Proof.
  unfold MetaPackage.__init__, MetaVersion.__init__, Versioned.__init__,
    Versioned.supplied_format_version,
    Versioned.format_version_must_be_supported.
  destruct (Z.leb_spec v META_FORMAT_VERSION) as [Hle|Hgt]; simpl;
    repeat split; intros; try reflexivity; try discriminate; try lia.
Qed.

(** ** Trait derivation *)

Section Traits.

Import MojangLibrary.

Lemma with_traits_same (lib : t) : with_traits lib (traits lib) = lib.
Proof. destruct lib; reflexivity. Qed.

(** C7: on a descriptor whose coordinate is arch-dependent,
    [add_archdependent_trait] appends ["ArchDependent"] to the traits,
    starting the list when there was none, and changes nothing else; on
    any other descriptor it changes nothing; and it is not idempotent:
    a second call appends the trait a second time. *)
Theorem C7_add_archdependent_trait (lib : t) :
  (GradleSpecifier.is_archdependent (name lib) = true ->
     add_archdependent_trait lib
     = with_traits lib
         (Some (Spec.trait_list (traits lib) ++ ["ArchDependent"])%list)
     /\ add_archdependent_trait (add_archdependent_trait lib)
        = with_traits lib
            (Some (Spec.trait_list (traits lib)
                     ++ ["ArchDependent"; "ArchDependent"])%list)
     /\ add_archdependent_trait (add_archdependent_trait lib)
        <> add_archdependent_trait lib)
  /\ (GradleSpecifier.is_archdependent (name lib) = false ->
     add_archdependent_trait lib = lib).
Proof.
  split; intros Harch.
  - assert (H1 : add_archdependent_trait lib
      = with_traits lib
          (Some (Spec.trait_list (traits lib) ++ ["ArchDependent"])%list)).
    { unfold add_archdependent_trait. rewrite Harch.
      destruct (traits lib) as [[|x ts]|]; reflexivity. }
    assert (H2 : add_archdependent_trait (add_archdependent_trait lib)
      = with_traits lib
          (Some (Spec.trait_list (traits lib)
                   ++ ["ArchDependent"; "ArchDependent"])%list)).
    { rewrite H1. unfold add_archdependent_trait at 1.
      cbn [with_traits name traits]. rewrite Harch.
      destruct (Spec.trait_list (traits lib) ++ ["ArchDependent"])%list
        as [|x ts] eqn:E.
      - destruct (Spec.trait_list (traits lib)); discriminate.
      - cbn [truthy_list with_traits extract name downloads natives rules
               arch_rules traits].
        rewrite <- E, <- app_assoc. reflexivity. }
    split; [exact H1|]. split; [exact H2|].
    rewrite H2, H1. intros Heq.
    apply (f_equal traits) in Heq. cbn [with_traits traits] in Heq.
    injection Heq as Heq. apply (f_equal (@List.length string)) in Heq.
    rewrite !length_app in Heq. simpl in Heq. lia.
  - unfold add_archdependent_trait. rewrite Harch. reflexivity.
Qed.

Lemma C7_add_archdependent_trait_witness :
  add_archdependent_trait
    (add_archdependent_trait
       (mk None (GradleSpecifier.mk "org.lwjgl" "lwjgl" "3.2.2" None "jar")
           None None None None None))
  = mk None (GradleSpecifier.mk "org.lwjgl" "lwjgl" "3.2.2" None "jar")
       None None None None (Some ["ArchDependent"; "ArchDependent"]).
Proof.
  apply (proj1 (proj2 (proj1 (C7_add_archdependent_trait
    (mk None (GradleSpecifier.mk "org.lwjgl" "lwjgl" "3.2.2" None "jar")
        None None None None None)) eq_refl))).
Defined.

End Traits.

(** ** Rule synthesis in [MojangLibrary.dict] *)

Section RuleSynthesis.

Import MojangLibrary.

Lemma os_rule_init (arch : string) :
  mem arch ["osx"; "osx-arm64"; "linux"; "linux-arm64"; "windows"] = true ->
  OSRule.__init__ arch None = Ok (OSRule.mk arch None).
Proof.
  intros H. unfold OSRule.__init__, OSRule.name_must_be_os.
  rewrite H. reflexivity.
Qed.

Lemma rule_init (action : string) (os : option OSRule.t) :
  mem action ["allow"; "disallow"] = true ->
  MojangRule.__init__ action os = Ok (MojangRule.mk action os).
Proof.
  intros H.
  unfold MojangRule.__init__, MojangRule.action_must_be_allow_disallow.
  rewrite H. reflexivity.
Qed.

Lemma append_arches_ok (action : string) (arches : list string) :
  mem action ["allow"; "disallow"] = true ->
  Forall
    (fun arch =>
       mem arch ["osx"; "osx-arm64"; "linux"; "linux-arm64"; "windows"] = true)
    arches ->
  forall (self : t) (rs : list MojangRule.t),
    rules self = Some (MojangRules.mk rs) ->
    append_arches action arches self
    = Ok (with_rules self
            (Some (MojangRules.mk
                     (rs ++ map (Spec.arch_rule action) arches)%list))).
Proof.
  intros Haction Harches.
  induction Harches as [|arch arches Harch _ IH]; intros self rs Hrules.
  - simpl. rewrite app_nil_r, <- Hrules. now destruct self.
  - cbn [append_arches]. rewrite (os_rule_init _ Harch). cbn [bind].
    rewrite (rule_init _ _ Haction). cbn [bind].
    unfold append_rule. rewrite Hrules. cbn [bind MojangRules.__root__].
    erewrite IH by reflexivity.
    unfold with_rules. cbn. rewrite <- app_assoc. reflexivity.
Qed.

Lemma append_arch_rules_ok (items : list (string * list string)) :
  Spec.well_formed items ->
  forall (self : t) (rs : list MojangRule.t),
    rules self = Some (MojangRules.mk rs) ->
    append_arch_rules items self
    = Ok (with_rules self
            (Some (MojangRules.mk (rs ++ Spec.expansion items)%list))).
Proof.
  intros Hwf.
  induction Hwf as [|[action arches] items [Haction Harches] _ IH];
    intros self rs Hrules.
  - simpl. rewrite app_nil_r, <- Hrules. now destruct self.
  - cbn [append_arch_rules]. simpl in Haction, Harches.
    rewrite (append_arches_ok _ _ Haction Harches self rs Hrules).
    cbn [bind]. erewrite IH by reflexivity.
    unfold with_rules, Spec.expansion. cbn. rewrite <- app_assoc. reflexivity.
Qed.

(** The rules [expand] starts from: the explicit rules when the
    [rules] field holds a model, and otherwise the blanket allow rule
    or nothing. *)
Lemma expand_ok (self : t) (items : list (string * list string)) :
  arch_rules self = Some items ->
  Spec.well_formed items ->
  expand self
  = Ok (with_arch_rules
          (with_rules self
             (Some (MojangRules.mk
                      (match rules self with
                       | Some rs => MojangRules.__root__ rs
                       | None =>
                           if has_key "disallow" items
                           then [Spec.allow_rule] else []
                       end ++ Spec.expansion items)%list)))
          None).
Proof.
  intros Hitems Hwf. unfold expand. rewrite Hitems.
  destruct (rules self) as [[rs]|] eqn:Hrules; cbn [MojangRules.truthy negb bind].
  - rewrite (append_arch_rules_ok _ Hwf self rs Hrules). reflexivity.
  - destruct (has_key "disallow" items).
    + rewrite rule_init by reflexivity. cbn [bind].
      unfold append_rule. cbn [with_rules rules MojangRules.__root__ app bind].
      pose proof (append_arch_rules_ok items Hwf) as E.
      match goal with
      | |- bind (append_arch_rules _ ?s) _ = _ =>
          specialize (E s [Spec.allow_rule] eq_refl)
      end.
      rewrite E. reflexivity.
    + cbn [bind].
      pose proof (append_arch_rules_ok items Hwf) as E.
      match goal with
      | |- bind (append_arch_rules _ ?s) _ = _ =>
          specialize (E s [] eq_refl)
      end.
      rewrite E. reflexivity.
Qed.

(** Where the code and section 4.2 agree: on every descriptor except
    one whose [rules] field holds the empty list while the map has the
    [disallow] action. *)
Lemma expand_synthesize (self : t) (items : list (string * list string)) :
  arch_rules self = Some items ->
  Spec.well_formed items ->
  (rules self = Some (MojangRules.mk []) -> has_key "disallow" items = false) ->
  expand self
  = Ok (with_arch_rules
          (with_rules self
             (Some (MojangRules.mk
                      (Spec.synthesize (Spec.explicit_rules (rules self))
                         items))))
          None).
Proof.
  intros Hitems Hwf Hexc. rewrite (expand_ok self items Hitems Hwf).
  do 4 f_equal. unfold Spec.synthesize, Spec.explicit_rules.
  destruct (rules self) as [[[|r rs]]|]; cbn [MojangRules.__root__ app].
  - rewrite (Hexc eq_refl). reflexivity.
  - reflexivity.
  - destruct (has_key "disallow" items); reflexivity.
Qed.

(** C1 on the failing input: the [rules] field holds the empty list
    and the map disallows [osx-arm64].  Section 4.2 yields the blanket
    allow rule and the disallow rule; the code, for which a
    [MojangRules] instance is always true, yields the disallow rule
    alone.  With no [rules] field at all the code yields both. *)
Theorem C1_empty_rules_list_gets_no_allow_rule :
  Spec.synthesize
    (Spec.explicit_rules (Some (MojangRules.mk []))) Sample.disallow_osx_arm64
  = [Spec.allow_rule; Spec.arch_rule "disallow" "osx-arm64"]
  /\ expand
       (Sample.library (Some (MojangRules.mk [])) (Some Sample.disallow_osx_arm64))
     = Ok (Sample.library
             (Some (MojangRules.mk [Spec.arch_rule "disallow" "osx-arm64"]))
             None)
  /\ dict true
       (Sample.library (Some (MojangRules.mk [])) (Some Sample.disallow_osx_arm64))
     = Ok (PDict
             [("name", PSpecifier Sample.lwjgl);
              ("rules",
               PList
                 [PDict [("action", PStr "disallow");
                         ("os", PDict [("name", PStr "osx-arm64")])]])])
  /\ dict true (Sample.library None (Some Sample.disallow_osx_arm64))
     = Ok (PDict
             [("name", PSpecifier Sample.lwjgl);
              ("rules",
               PList
                 [PDict [("action", PStr "allow")];
                  PDict [("action", PStr "disallow");
                         ("os", PDict [("name", PStr "osx-arm64")])]])]).
Proof.
  repeat split; reflexivity.
Qed.

(** ** The [arch_rules] field in the emitted form *)

Lemma expand_clears_arch_rules (self new_self : t) :
  expand self = Ok new_self -> arch_rules new_self = None.
Proof.
  unfold expand. destruct (arch_rules self) as [items|]; [|discriminate].
  match goal with
  | |- bind ?r _ = _ -> _ => destruct r as [a|e]; [|discriminate]
  end.
  cbn [bind]. destruct (append_arch_rules items a) as [b|e]; [|discriminate].
  cbn [bind]. intros H. injection H as <-. reflexivity.
Qed.

Lemma fields_arch_rules_key (exclude_none : bool) (self : t) :
  has_key "arch_rules" (items (MetaBase.dict true (fields exclude_none self)))
  = match arch_rules self with
    | Some _ => true
    | None => false
    end.
Proof.
  destruct self as [e n d na r a tr].
  destruct e, d, na, r, a, tr; reflexivity.
Qed.

(** With [exclude_none], the export of a descriptor has the key
    [arch_rules] exactly when the field holds the empty map. *)
Lemma dict_arch_rules_key (self : t) (data : pyobj) :
  dict true self = Ok data ->
  (has_key "arch_rules" (items data) = true <-> arch_rules self = Some []).
Proof.
  unfold dict, dict_with.
  destruct (negb (truthy_list (arch_rules self))) eqn:Htruth.
  - intros H. injection H as <-.
    change (has_key "arch_rules" (items (MetaBase.dict true (fields true self)))
            = true <-> arch_rules self = Some []).
    rewrite (fields_arch_rules_key true).
    destruct (arch_rules self) as [[|kv l]|]; try discriminate;
      split; (reflexivity || discriminate).
  - destruct (expand self) as [new_self|e] eqn:Hexp; [|discriminate].
    unfold bind. intros H. injection H as <-.
    change (has_key "arch_rules"
              (items (MetaBase.dict true (fields true new_self)))
            = true <-> arch_rules self = Some []).
    rewrite (fields_arch_rules_key true), (expand_clears_arch_rules _ _ Hexp).
    destruct (arch_rules self) as [[|kv l]|]; try discriminate;
      split; discriminate.
Qed.

(** C4 on the failing input: a descriptor whose [arch_rules] is the
    empty map takes the first branch of [dict], which exports the field
    as it is; the key reaches the JSON text of the enclosing document.
    A non-empty map is expanded and the field cleared. *)
Theorem C4_empty_arch_rules_is_emitted (serialize_datetime : datetime -> string) :
  dict true (Sample.library None (Some []))
  = Ok (PDict [("name", PSpecifier Sample.lwjgl); ("arch_rules", PDict [])])
  /\ (exists text,
        MetaVersion.json serialize_datetime
          (Sample.version_with (Sample.library None (Some [])))
        = Ok text
        /\ contains (encode_str "arch_rules" ++ ": {}") text = true)
  /\ (exists text,
        MetaVersion.json serialize_datetime
          (Sample.version_with
             (Sample.library None (Some Sample.disallow_osx_arm64)))
        = Ok text
        /\ contains (encode_str "arch_rules") text = false).
Proof.
  split; [reflexivity|].
  split; eexists; (split; [reflexivity|]); vm_compute; reflexivity.
Qed.

End RuleSynthesis.

(** ** Sorting dictionary items by key *)

Section Sorting.

Lemma leb_trans (a b c : string) :
  String.leb a b = true -> String.leb b c = true -> String.leb a c = true.
Proof.
  unfold String.leb. revert b c.
  induction a as [|x a IH]; intros [|y b] [|z c]; simpl; try easy.
  unfold Ascii.compare.
  destruct (N.compare_spec (N_of_ascii x) (N_of_ascii y)) as [Hxy|Hxy|Hxy];
    try easy;
    destruct (N.compare_spec (N_of_ascii y) (N_of_ascii z)) as [Hyz|Hyz|Hyz];
    try easy;
    destruct (N.compare_spec (N_of_ascii x) (N_of_ascii z)) as [Hxz|Hxz|Hxz];
    try easy; try lia.
  apply IH.
Qed.

Lemma insert_item_comm (x y : string * string) (l : list (string * string)) :
  fst x <> fst y ->
  insert_item x (insert_item y l) = insert_item y (insert_item x l).
Proof.
  intros Hne. induction l as [|z l IH]; simpl.
  - destruct (String.leb (fst x) (fst y)) eqn:Hxy,
             (String.leb (fst y) (fst x)) eqn:Hyx; try reflexivity.
    + elim Hne. now apply String.leb_antisym.
    + destruct (String.leb_total (fst x) (fst y)); congruence.
  - destruct (String.leb (fst x) (fst z)) eqn:Hxz,
             (String.leb (fst y) (fst z)) eqn:Hyz; simpl;
      rewrite ?Hxz, ?Hyz.
    + destruct (String.leb (fst x) (fst y)) eqn:Hxy,
               (String.leb (fst y) (fst x)) eqn:Hyx;
        rewrite ?Hxz, ?Hyz; try reflexivity.
      * elim Hne. now apply String.leb_antisym.
      * destruct (String.leb_total (fst x) (fst y)); congruence.
    + destruct (String.leb (fst y) (fst x)) eqn:Hyx; [|reflexivity].
      rewrite (leb_trans _ _ _ Hyx Hxz) in Hyz. discriminate.
    + destruct (String.leb (fst x) (fst y)) eqn:Hxy; [|reflexivity].
      rewrite (leb_trans _ _ _ Hxy Hyz) in Hxz. discriminate.
    + now rewrite IH.
Qed.

(** The order in which the items arrive does not matter. *)
Lemma sort_items_perm (l1 l2 : list (string * string)) :
  Permutation l1 l2 -> NoDup (map fst l1) -> sort_items l1 = sort_items l2.
Proof.
  induction 1 as [|x l1 l2 _ IH|x y l|l1 l2 l3 H12 IH12 H23 IH23];
    intros Hnodup; simpl.
  - reflexivity.
  - inversion Hnodup; subst. now rewrite IH.
  - apply insert_item_comm. inversion Hnodup as [|? ? Hin _]; subst.
    intros Heq. apply Hin. left. now symmetry.
  - rewrite IH12 by assumption. apply IH23.
    eapply Permutation_NoDup; [|exact Hnodup].
    now apply Permutation_map.
Qed.

Lemma insert_item_permutation (x : string * string)
    (l : list (string * string)) :
  Permutation (x :: l) (insert_item x l).
Proof.
  induction l as [|y l IH]; simpl; [reflexivity|].
  destruct (String.leb (fst x) (fst y)); [reflexivity|].
  rewrite perm_swap. now constructor.
Qed.

Lemma sort_items_permutation (l : list (string * string)) :
  Permutation l (sort_items l).
Proof.
  induction l as [|x l IH]; simpl; [reflexivity|].
  rewrite <- insert_item_permutation. now constructor.
Qed.

Lemma insert_item_sorted (x : string * string) (l : list (string * string)) :
  StronglySorted Spec.key_le l -> StronglySorted Spec.key_le (insert_item x l).
Proof.
  induction 1 as [|y l Hsorted IH Hall]; simpl.
  - repeat constructor.
  - destruct (String.leb (fst x) (fst y)) eqn:Hxy.
    + constructor; [now constructor|].
      constructor; [exact Hxy|].
      eapply Forall_impl; [|exact Hall].
      intros z Hyz. exact (leb_trans _ _ _ Hxy Hyz).
    + constructor; [exact IH|].
      rewrite <- insert_item_permutation. constructor; [|exact Hall].
      unfold Spec.key_le.
      destruct (String.leb_total (fst x) (fst y)); congruence.
Qed.

Lemma sort_items_sorted (l : list (string * string)) :
  StronglySorted Spec.key_le (sort_items l).
Proof.
  induction l as [|x l IH]; simpl; [constructor|].
  now apply insert_item_sorted.
Qed.

End Sorting.

(** ** Canonical serialization *)

(** Induction on exported values that reaches into lists and
    dictionaries. *)
Lemma pyobj_nested_ind (P : pyobj -> Prop) :
  P PNone ->
  (forall b, P (PBool b)) ->
  (forall z, P (PInt z)) ->
  (forall s, P (PStr s)) ->
  (forall g, P (PSpecifier g)) ->
  (forall d, P (PDatetime d)) ->
  (forall l, Forall P l -> P (PList l)) ->
  (forall d, Forall (fun kv => P (snd kv)) d -> P (PDict d)) ->
  forall o, P o.
Proof.
  intros HNone HBool HInt HStr HSpec HDate HList HDict.
  refine (fix IH (o : pyobj) : P o :=
            match o with
            | PNone => HNone
            | PBool b => HBool b
            | PInt z => HInt z
            | PStr s => HStr s
            | PSpecifier g => HSpec g
            | PDatetime d => HDate d
            | PList l =>
                HList l
                  ((fix all (l : list pyobj) : Forall P l :=
                      match l with
                      | [] => Forall_nil P
                      | x :: r => Forall_cons x (IH x) (all r)
                      end) l)
            | PDict d =>
                HDict d
                  ((fix all (d : list (string * pyobj))
                      : Forall (fun kv => P (snd kv)) d :=
                      match d with
                      | [] => Forall_nil _
                      | kv :: r => Forall_cons kv (IH (snd kv)) (all r)
                      end) d)
            end).
Qed.

Section Serialization.

Variable serialize_datetime : datetime -> string.

Lemma encode_list (level : nat) (l1 l2 : list pyobj) :
  map (encode serialize_datetime (S level)) l1
  = map (encode serialize_datetime (S level)) l2 ->
  encode serialize_datetime level (PList l1)
  = encode serialize_datetime level (PList l2).
Proof.
  intros H. destruct l1 as [|x l1], l2 as [|y l2]; try discriminate.
  - reflexivity.
  - cbn [encode]. now rewrite H.
Qed.

Lemma encode_dict (level : nat) (d1 d2 : list (string * pyobj)) :
  sort_items (rendered serialize_datetime level d1) = sort_items (rendered serialize_datetime level d2) ->
  List.length d1 = List.length d2 ->
  encode serialize_datetime level (PDict d1)
  = encode serialize_datetime level (PDict d2).
Proof.
  unfold rendered. intros H Hlen.
  destruct d1 as [|x d1], d2 as [|y d2]; try discriminate.
  - reflexivity.
  - cbn [encode]. now rewrite H.
Qed.

(** Serialization does not see the insertion order of dictionaries. *)
Lemma encode_same_document (o1 : pyobj) :
  forall o2, Spec.same_document o1 o2 ->
  forall level,
    encode serialize_datetime level o1 = encode serialize_datetime level o2.
Proof.
  induction o1 as [| | | | | |l1 IH|d1 IH] using pyobj_nested_ind;
    intros o2 Hsame level; inversion Hsame; subst; try reflexivity.
  - (* lists: element by element *)
    apply encode_list.
    match goal with H : Forall2 _ l1 _ |- _ => revert H end.
    clear Hsame. intros Hall. induction Hall as [|x y l1 l2 Hxy _ IHall].
    + reflexivity.
    + inversion IH; subst. cbn [map]. f_equal; auto.
  - (* dictionaries: the permuted items render alike, then sorting
       forgets the permutation *)
    match goal with
    | Hperm : Permutation d1 ?dm, Hall : Forall2 _ ?dm ?dr |- _ =>
        assert (Hmap : rendered serialize_datetime level dm = rendered serialize_datetime level dr);
        [ assert (IHm : Forall
            (fun kv => forall o2, Spec.same_document (snd kv) o2 ->
               forall level,
                 encode serialize_datetime level (snd kv)
                 = encode serialize_datetime level o2) dm)
            by (eapply Permutation_Forall; eassumption);
          clear Hperm Hsame; unfold rendered;
          induction Hall as [|x y dm dr [Hk Hv] _ IHall];
          [ reflexivity
          | inversion IHm; subst; cbn [map]; f_equal;
            [ f_equal; auto | auto ] ]
        | apply encode_dict;
          [ rewrite <- Hmap; apply sort_items_perm;
            [ now apply Permutation_map
            | unfold rendered; now rewrite map_map ]
          | rewrite (Permutation_length Hperm);
            eapply Forall2_length; eassumption ] ]
    end.
Qed.

End Serialization.

(** ** No null-valued field in the export *)

Section NullFree.

Lemma dict_null_free (fs : MetaBase.fields) :
  Forall (fun f => forall v, snd f = Some v -> Spec.null_free v = true) fs ->
  Spec.null_free (MetaBase.dict true fs) = true.
Proof.
  unfold MetaBase.dict. cbn [Spec.null_free].
  induction 1 as [|[k [v|]] fs Hv _ IH]; cbn [flat_map app forallb snd fst].
  - reflexivity.
  - rewrite (Hv v eq_refl). exact IH.
  - exact IH.
Qed.

Lemma str_list_null_free (l : list string) :
  Spec.null_free (MetaBase.str_list l) = true.
Proof.
  unfold MetaBase.str_list. cbn [Spec.null_free].
  induction l; simpl; auto.
Qed.

Lemma list_null_free {A : Type} (f : A -> pyobj) (l : list A) :
  (forall a, Spec.null_free (f a) = true) ->
  Spec.null_free (PList (map f l)) = true.
Proof.
  intros H. cbn [Spec.null_free]. induction l; simpl; rewrite ?H; auto.
Qed.

Lemma map_null_free {A : Type} (f : A -> pyobj) (d : list (string * A)) :
  (forall a, Spec.null_free (f a) = true) ->
  Spec.null_free (PDict (map (fun kv => (fst kv, f (snd kv))) d)) = true.
Proof.
  intros H. cbn [Spec.null_free]. induction d; simpl; rewrite ?H; auto.
Qed.

(** Discharges [Forall] over a literal list of fields, one field at a
    time. *)
Ltac each_field :=
  repeat (apply Forall_cons; [cbn [snd]; intros ? Hv|]);
  [..|apply Forall_nil].

Ltac from_option Hv :=
  match type of Hv with
  | option_map _ ?o = Some _ => destruct o; [|discriminate]
  | MetaBase.opt_str ?o = Some _ => destruct o; [|discriminate]
  | MetaBase.opt_int ?o = Some _ => destruct o; [|discriminate]
  | MetaBase.opt_bool ?o = Some _ => destruct o; [|discriminate]
  | MetaBase.opt_str_list ?o = Some _ => destruct o; [|discriminate]
  | _ => idtac
  end;
  injection Hv as <-.

Lemma artifact_null_free (a : MojangArtifact.t) :
  Spec.null_free (MojangArtifact.dict true a) = true.
Proof.
  apply dict_null_free. unfold MojangArtifact.fields.
  each_field; from_option Hv; reflexivity.
Qed.

Lemma assets_null_free (a : MojangAssets.t) :
  Spec.null_free (MojangAssets.dict true a) = true.
Proof.
  apply dict_null_free. unfold MojangAssets.fields.
  each_field; from_option Hv; reflexivity.
Qed.

Lemma extract_null_free (e : MojangLibraryExtractRules.t) :
  Spec.null_free (MojangLibraryExtractRules.dict true e) = true.
Proof.
  apply dict_null_free. unfold MojangLibraryExtractRules.fields.
  each_field; from_option Hv. apply str_list_null_free.
Qed.

Lemma downloads_null_free (d : MojangLibraryDownloads.t) :
  Spec.null_free (MojangLibraryDownloads.dict true d) = true.
Proof.
  apply dict_null_free. unfold MojangLibraryDownloads.fields.
  each_field; from_option Hv.
  - apply artifact_null_free.
  - apply map_null_free, artifact_null_free.
Qed.

Lemma os_rule_null_free (r : OSRule.t) :
  Spec.null_free (OSRule.dict true r) = true.
Proof.
  apply dict_null_free. unfold OSRule.fields.
  each_field; from_option Hv; reflexivity.
Qed.

Lemma rule_null_free (r : MojangRule.t) :
  Spec.null_free (MojangRule.dict true r) = true.
Proof.
  apply dict_null_free. unfold MojangRule.fields.
  each_field; from_option Hv; [reflexivity|apply os_rule_null_free].
Qed.

Lemma rules_null_free (r : MojangRules.t) :
  Spec.null_free (MojangRules.dict true r) = true.
Proof. apply list_null_free, rule_null_free. Qed.

Lemma dependency_null_free (d : Dependency.t) :
  Spec.null_free (Dependency.dict true d) = true.
Proof.
  apply dict_null_free. unfold Dependency.fields.
  each_field; from_option Hv; reflexivity.
Qed.

Lemma library_fields_null_free (lib : MojangLibrary.t) :
  Forall (fun f => forall v, snd f = Some v -> Spec.null_free v = true)
    (MojangLibrary.fields true lib).
Proof.
  unfold MojangLibrary.fields. each_field; from_option Hv.
  - apply extract_null_free.
  - reflexivity.
  - apply downloads_null_free.
  - apply (map_null_free PStr). reflexivity.
  - apply rules_null_free.
  - apply (map_null_free MetaBase.str_list), str_list_null_free.
  - apply str_list_null_free.
Qed.

Lemma dict_with_null_free (extra : MetaBase.fields) (lib : MojangLibrary.t)
    (data : pyobj) :
  Forall (fun f => forall v, snd f = Some v -> Spec.null_free v = true) extra ->
  MojangLibrary.dict_with extra true lib = Ok data ->
  Spec.null_free data = true.
Proof.
  intros Hextra. unfold MojangLibrary.dict_with.
  destruct (negb (truthy_list (MojangLibrary.arch_rules lib))).
  - intros H. apply Ok_inj in H. subst data.
    apply dict_null_free, Forall_app.
    split; [apply library_fields_null_free|exact Hextra].
  - destruct (MojangLibrary.expand lib) as [new_self|e]; [|discriminate].
    unfold bind. intros H. apply Ok_inj in H. subst data.
    apply dict_null_free, Forall_app.
    split; [apply library_fields_null_free|exact Hextra].
Qed.

Lemma library_null_free (lib : Library.t) (data : pyobj) :
  Library.dict true lib = Ok data -> Spec.null_free data = true.
Proof.
  apply dict_with_null_free. unfold Library.own_fields.
  each_field; from_option Hv; reflexivity.
Qed.

Lemma map_result_forall {A B : Type} (f : A -> result B) (P : B -> Prop)
    (l : list A) (bs : list B) :
  (forall a b, f a = Ok b -> P b) ->
  map_result f l = Ok bs -> Forall P bs.
Proof.
  intros Hf. revert bs. induction l as [|a l IH]; intros bs; simpl.
  - intros H. injection H as <-. constructor.
  - destruct (f a) as [b|e] eqn:Hfa; [|discriminate]. cbn [bind].
    destruct (map_result f l) as [bs'|e]; [|discriminate]. cbn [bind].
    intros H. injection H as <-. constructor; eauto.
Qed.

Lemma library_list_null_free (l : list Library.t) (data : pyobj) :
  MetaVersion.library_list true l = Ok data -> Spec.null_free data = true.
Proof.
  unfold MetaVersion.library_list.
  destruct (map_result (Library.dict true) l) as [ds|e] eqn:Hds;
    [|discriminate].
  cbn [bind]. intros H. injection H as <-.
  apply (map_result_forall _ (fun d => Spec.null_free d = true)) in Hds;
    [|apply library_null_free].
  cbn [Spec.null_free]. apply forallb_forall.
  now apply Forall_forall.
Qed.

Lemma option_result_some {A B : Type} (f : A -> result B) (o : option A)
    (r : option B) (b : B) :
  option_result f o = Ok r -> r = Some b -> exists a, f a = Ok b.
Proof.
  destruct o as [a|]; simpl.
  - destruct (f a) as [b'|e] eqn:Hfa; [|discriminate]. cbn [bind].
    intros H Hr. injection H as <-. injection Hr as <-. now exists a.
  - intros H Hr. injection H as <-. discriminate.
Qed.

Lemma version_null_free (v : MetaVersion.t) (data : pyobj) :
  MetaVersion.dict true v = Ok data -> Spec.null_free data = true.
Proof.
  unfold MetaVersion.dict, MetaVersion.fields.
  destruct (option_result _ (MetaVersion.libraries _)) as [libs|e] eqn:Hlibs;
    [|discriminate]; cbn [bind].
  destruct (option_result _ (MetaVersion.maven_files _)) as [maven|e]
    eqn:Hmaven; [|discriminate]; cbn [bind].
  destruct (option_result _ (MetaVersion.main_jar _)) as [jar|e] eqn:Hjar;
    [|discriminate]; cbn [bind].
  destruct (option_result _ (MetaVersion.jar_mods _)) as [mods|e] eqn:Hmods;
    [|discriminate]; cbn [bind].
  intros H. apply Ok_inj in H. subst data. apply dict_null_free.
  unfold Versioned.fields. cbn [app].
  each_field;
    try (from_option Hv;
         first [ reflexivity
               | apply str_list_null_free
               | apply assets_null_free
               | apply (list_null_free (Dependency.dict true)),
                   dependency_null_free
               | apply (list_null_free PInt); reflexivity ]).
  - destruct (option_result_some _ _ _ _ Hlibs Hv) as [l Hl].
    exact (library_list_null_free _ _ Hl).
  - destruct (option_result_some _ _ _ _ Hmaven Hv) as [l Hl].
    exact (library_list_null_free _ _ Hl).
  - destruct (option_result_some _ _ _ _ Hjar Hv) as [l Hl].
    exact (library_null_free _ _ Hl).
  - destruct (option_result_some _ _ _ _ Hmods Hv) as [l Hl].
    exact (library_list_null_free _ _ Hl).
Qed.

Lemma package_null_free (p : MetaPackage.t) :
  Spec.null_free (MetaPackage.dict true p) = true.
Proof.
  apply dict_null_free. unfold MetaPackage.fields, Versioned.fields.
  cbn [app].
  each_field; from_option Hv;
    first [reflexivity | apply str_list_null_free].
Qed.

End NullFree.

(** ** Determinism of the canonical form *)

Section Canonical.

Variable serialize_datetime : datetime -> string.

Lemma same_items_refl (d : list (string * pyobj)) :
  Forall2 (fun a b => fst a = fst b /\ Spec.same_document (snd a) (snd b)) d d.
Proof.
  induction d; constructor; auto. split; [reflexivity|constructor].
Qed.

Lemma dict_keys_nodup (exclude_none : bool) (fs : MetaBase.fields) :
  NoDup (map fst fs) ->
  NoDup (map fst (items (MetaBase.dict exclude_none fs))).
Proof.
  unfold MetaBase.dict. cbn [items].
  assert (Hin : forall fs' k,
    In k (map fst
            (flat_map
               (fun f : string * option pyobj =>
                  match snd f with
                  | Some v => [(fst f, v)]
                  | None => if exclude_none then [] else [(fst f, PNone)]
                  end) fs')) ->
    In k (map fst fs')).
  { induction fs' as [|[k' [v|]] fs' IH]; intros k; cbn; auto.
    - intros [->|H]; auto.
    - destruct exclude_none; cbn; auto. intros [->|H]; auto. }
  induction fs as [|[k [v|]] fs IH]; intros Hnodup; cbn.
  - constructor.
  - inversion Hnodup; subst. constructor; auto.
  - inversion Hnodup; subst. destruct exclude_none; cbn; auto.
    constructor; auto.
Qed.

(** The order in which a model's fields are declared or supplied does
    not change the exported document. *)
Lemma dict_field_order (exclude_none : bool) (fs1 fs2 : MetaBase.fields) :
  NoDup (map fst fs1) ->
  Permutation fs1 fs2 ->
  Spec.same_document
    (MetaBase.dict exclude_none fs1) (MetaBase.dict exclude_none fs2).
Proof.
  intros Hnodup Hperm.
  pose proof (dict_keys_nodup exclude_none fs1 Hnodup) as Hkeys.
  unfold MetaBase.dict in *. cbn [items] in Hkeys.
  eapply Spec.same_dict; [exact Hkeys| |apply same_items_refl].
  now apply Permutation_flat_map.
Qed.

(** A non-empty dictionary is rendered item by item in the order of
    its keys. *)
Lemma encode_dict_sorted (level : nat) (d : list (string * pyobj)) :
  d <> [] ->
  exists sorted,
    StronglySorted Spec.key_le sorted
    /\ Permutation (map fst d) (map fst sorted)
    /\ encode serialize_datetime level (PDict d)
       = "{" ++ newline_indent (S level)
           ++ concat ("," ++ newline_indent (S level))
                (map (fun kv => encode_str (fst kv) ++ ": " ++ snd kv) sorted)
           ++ newline_indent level ++ "}".
Proof.
  intros Hd.
  exists (sort_items
            (map (fun kv => (fst kv, encode serialize_datetime (S level) (snd kv)))
               d)).
  split; [apply sort_items_sorted|]. split.
  - rewrite <- sort_items_permutation, map_map. cbn [fst]. reflexivity.
  - destruct d; [contradiction|reflexivity].
Qed.

(** C9: the serialized text depends on the logical document only, not
    on the order in which fields or dictionary entries were built: the
    items of every object are written in the order of their keys, and
    with [exclude_none] no field whose value is [None] is exported, in
    a version document, a package document or a library. *)
Theorem C9_canonical_serialization
    (o1 o2 : pyobj) (fs1 fs2 : MetaBase.fields)
    (d : list (string * pyobj)) (level : nat)
    (v : MetaVersion.t) (p : MetaPackage.t) (lib : Library.t) :
  (Spec.same_document o1 o2 ->
     dumps serialize_datetime o1 = dumps serialize_datetime o2)
  /\ (NoDup (map fst fs1) -> Permutation fs1 fs2 ->
      dumps serialize_datetime (MetaBase.dict true fs1)
      = dumps serialize_datetime (MetaBase.dict true fs2))
  /\ (d <> [] ->
      exists sorted,
        StronglySorted Spec.key_le sorted
        /\ Permutation (map fst d) (map fst sorted)
        /\ encode serialize_datetime level (PDict d)
           = "{" ++ newline_indent (S level)
               ++ concat ("," ++ newline_indent (S level))
                    (map (fun kv => encode_str (fst kv) ++ ": " ++ snd kv)
                       sorted)
               ++ newline_indent level ++ "}")
  /\ (forall data, MetaVersion.dict true v = Ok data ->
      Spec.null_free data = true)
  /\ (forall text, MetaVersion.json serialize_datetime v = Ok text ->
      exists data, MetaVersion.dict true v = Ok data
        /\ Spec.null_free data = true
        /\ text = dumps serialize_datetime data)
  /\ Spec.null_free (MetaPackage.dict true p) = true
  /\ (forall data, Library.dict true lib = Ok data ->
      Spec.null_free data = true).
Proof.
  split; [|split; [|split; [|split; [|split; [|split]]]]].
  - intros H. unfold dumps. now apply encode_same_document.
  - intros Hnodup Hperm. unfold dumps.
    apply encode_same_document. now apply dict_field_order.
  - apply encode_dict_sorted.
  - exact (version_null_free v).
  - unfold MetaVersion.json. intros text.
    destruct (MetaVersion.dict true v) as [data|e] eqn:Hdata; [|discriminate].
    unfold bind. intros H. apply Ok_inj in H. subst text.
    exists data. split; [reflexivity|]. split; [|reflexivity].
    exact (version_null_free v data Hdata).
  - apply package_null_free.
  - exact (library_null_free lib).
Qed.

End Canonical.

(** Two constructions of one rule object, the keys inserted in opposite
    orders and a nested dictionary permuted as well, have one text. *)
Lemma C9_canonical_serialization_witness :
  dumps (fun _ => "")
    (PDict [("os", PDict [("version", PStr "10"); ("name", PStr "osx")]);
            ("action", PStr "allow")])
  = dumps (fun _ => "")
      (PDict [("action", PStr "allow");
              ("os", PDict [("name", PStr "osx"); ("version", PStr "10")])]).
Proof.
  apply (proj1 (C9_canonical_serialization (fun _ => "")
    (PDict [("os", PDict [("version", PStr "10"); ("name", PStr "osx")]);
            ("action", PStr "allow")])
    (PDict [("action", PStr "allow");
            ("os", PDict [("name", PStr "osx"); ("version", PStr "10")])])
    [] [] [] 0
    (Sample.version_with (Sample.library None None))
    (MetaPackage.mk (Versioned.mk 1) (MetaPackage.mk_body "" "" None None None None))
    (Library.mk (Sample.library None None) None None))).
  eapply Spec.same_dict.
  - repeat constructor; simpl; intuition discriminate.
  - apply perm_swap.
  - constructor; [split; [reflexivity|constructor]|].
    constructor; [|constructor].
    split; [reflexivity|]. cbn [snd].
    eapply Spec.same_dict.
    + repeat constructor; simpl; intuition discriminate.
    + apply perm_swap.
    + apply same_items_refl.
Defined.

(** * Further properties *)

(** ** Splitting and separators *)

Section Separators.

Import Further.

Lemma has_char_app (c : ascii) (a b : string) :
  has_char c (a ++ b) = has_char c a || has_char c b.
Proof.
  induction a as [|d a IH]; simpl; [reflexivity|].
  now rewrite IH, orb_assoc.
Qed.

Lemma split_without (sep : ascii) (s : string) :
  has_char sep s = false -> split sep s = [s].
Proof.
  induction s as [|c s IH]; simpl; [reflexivity|].
  intros H. apply orb_false_iff in H as [Hc Hs].
  rewrite Hc, (IH Hs). reflexivity.
Qed.

Lemma split_app_sep (sep : ascii) (a b : string) :
  has_char sep a = false ->
  split sep (a ++ String sep b) = a :: split sep b.
Proof.
  induction a as [|c a IH]; simpl.
  - intros _. now rewrite Ascii.eqb_refl.
  - intros H. apply orb_false_iff in H as [Hc Ha].
    rewrite Hc, (IH Ha). reflexivity.
Qed.

(** No piece of a split contains the separator. *)
Lemma split_pieces_without (sep : ascii) (s : string) :
  Forall (fun p => has_char sep p = false) (split sep s).
Proof.
  induction s as [|c s IH]; simpl.
  - repeat constructor.
  - destruct (Ascii.eqb c sep) eqn:Hc.
    + constructor; [reflexivity|exact IH].
    + destruct (split sep s) as [|p ps]; [repeat constructor; simpl|].
      * now rewrite Hc.
      * inversion IH; subst. constructor; [|assumption].
        simpl. now rewrite Hc.
Qed.

(** A character absent from a string is absent from the pieces of any
    split of it. *)
Lemma split_pieces_inherit (c sep : ascii) (s : string) :
  has_char c s = false ->
  Forall (fun p => has_char c p = false) (split sep s).
Proof.
  induction s as [|d s IH]; simpl.
  - repeat constructor.
  - intros H. apply orb_false_iff in H as [Hd Hs]. specialize (IH Hs).
    destruct (Ascii.eqb d sep).
    + constructor; [reflexivity|exact IH].
    + destruct (split sep s) as [|p ps]; [repeat constructor; simpl|].
      * now rewrite Hd.
      * inversion IH; subst. constructor; [|assumption].
        simpl. now rewrite Hd.
Qed.

End Separators.

(** ** GradleSpecifier: parsing what was rendered *)

Section Coordinates.

Import GradleSpecifier Further.

Lemma from_string_split (v b : string) (tail : list string) :
  split "@" v = b :: tail ->
  from_string v =
  match split ":" b with
  | g :: a :: ver :: rest =>
      Ok (__init__ g a ver
            (match rest with [c] => Some c | _ => None end)
            (match tail with [e] => Some e | _ => None end))
  | _ => Raise IndexError
  end.
Proof.
  intros H. rewrite from_string_components.
  pose proof (split_partition_first "@" v) as Hp. rewrite H in Hp.
  injection Hp as Hb Htail. unfold Spec.body. rewrite <- Hb, H.
  reflexivity.
Qed.

Lemma split_three (g a v : string) :
  has_char ":" g = false -> has_char ":" a = false ->
  has_char ":" v = false ->
  split ":" (g ++ ":" ++ a ++ ":" ++ v) = [g; a; v].
Proof.
  intros Hg Ha Hv. cbn [append].
  rewrite (split_app_sep ":" g _ Hg), (split_app_sep ":" a _ Ha),
    (split_without ":" v Hv).
  reflexivity.
Qed.

Lemma split_four (g a v c : string) :
  has_char ":" g = false -> has_char ":" a = false ->
  has_char ":" v = false -> has_char ":" c = false ->
  split ":" (g ++ ":" ++ a ++ ":" ++ v ++ ":" ++ c) = [g; a; v; c].
Proof.
  intros Hg Ha Hv Hc. cbn [append].
  rewrite (split_app_sep ":" g _ Hg), (split_app_sep ":" a _ Ha),
    (split_app_sep ":" v _ Hv), (split_without ":" c Hc).
  reflexivity.
Qed.

(** The text [__str__] writes before the extension suffix. *)
Lemma str_body (g : t) :
  exists body,
    __str__ g =
      body ++ (if extension g =? "jar" then "" else "@" ++ extension g)
    /\ body =
       match effective_classifier (classifier g) with
       | Some c => group g ++ ":" ++ artifact g ++ ":" ++ version g ++ ":" ++ c
       | None => group g ++ ":" ++ artifact g ++ ":" ++ version g
       end.
Proof.
  eexists. split; [|reflexivity].
  unfold __str__, effective_classifier.
  destruct (classifier g) as [c|]; cbn [truthy_str];
    [destruct (c =? ""); cbn [negb]|];
    destruct (extension g =? "jar"); cbn [negb];
    repeat (rewrite ?append_assoc; cbn [append]); reflexivity.
Qed.

Lemma from_string_of_str (g : t) :
  clean (group g) -> clean (artifact g) -> clean (version g) ->
  (forall c, classifier g = Some c -> clean c) ->
  has_char "@" (extension g) = false ->
  from_string (__str__ g)
  = Ok (mk (group g) (artifact g) (version g)
          (effective_classifier (classifier g)) (extension g)).
Proof.
  intros [Hg1 Hg2] [Ha1 Ha2] [Hv1 Hv2] Hc He.
  destruct (str_body g) as [body [Hstr Hbody]].
  assert (Hsplit : split ":" body =
    match effective_classifier (classifier g) with
    | Some c => [group g; artifact g; version g; c]
    | None => [group g; artifact g; version g]
    end).
  { rewrite Hbody. unfold effective_classifier.
    destruct (classifier g) as [c|] eqn:Ecls; cbn [truthy_str];
      [destruct (c =? ""); cbn [negb]|].
    - now apply split_three.
    - apply split_four; auto. now destruct (Hc c eq_refl).
    - now apply split_three. }
  assert (Hat : has_char "@" body = false).
  { rewrite Hbody. unfold effective_classifier.
    destruct (classifier g) as [c|] eqn:Ecls; cbn [truthy_str];
      [destruct (c =? ""); cbn [negb]|];
      rewrite ?has_char_app, ?Hg2, ?Ha2, ?Hv2; try reflexivity.
    destruct (Hc c eq_refl) as [_ Hc2]. now rewrite Hc2. }
  assert (Hext : split "@" (__str__ g) =
    body :: (if extension g =? "jar" then [] else [extension g])).
  { rewrite Hstr. destruct (extension g =? "jar").
    - rewrite append_empty_r. now apply split_without.
    - cbn [append]. rewrite (split_app_sep "@" body _ Hat),
        (split_without "@" _ He). reflexivity. }
  rewrite (from_string_split _ _ _ Hext), Hsplit.
  unfold __init__.
  destruct (effective_classifier (classifier g)) as [c|];
    destruct (String.eqb_spec (extension g) "jar") as [->|Hne];
    reflexivity.
Qed.

(** X1: a coordinate whose group, artifact, version and classifier
    contain neither [:] nor [@], and whose extension contains no [@],
    is parsed back from its string form: the coordinate itself when
    its classifier is not the empty string, and otherwise the same
    coordinate with no classifier. *)
Theorem X1_from_string_of_str (g : t) :
  clean (group g) -> clean (artifact g) -> clean (version g) ->
  (forall c, classifier g = Some c -> clean c) ->
  has_char "@" (extension g) = false ->
  from_string (__str__ g)
  = Ok (mk (group g) (artifact g) (version g)
          (effective_classifier (classifier g)) (extension g))
  /\ (classifier g <> Some "" -> from_string (__str__ g) = Ok g).
Proof.
  intros Hg Ha Hv Hc He.
  rewrite (from_string_of_str g Hg Ha Hv Hc He).
  split; [reflexivity|]. intros Hne. f_equal.
  destruct g as [gr ar ve [c|] ex]; cbn in *; [|reflexivity].
  unfold effective_classifier. cbn [truthy_str].
  destruct (String.eqb_spec c "") as [->|_]; [now elim Hne|reflexivity].
Qed.

Lemma X1_from_string_of_str_witness :
  from_string
    (__str__ (mk "net.minecraft" "launchwrapper" "1.5" (Some "natives") "zip"))
  = Ok (mk "net.minecraft" "launchwrapper" "1.5" (Some "natives") "zip").
Proof.
  apply (X1_from_string_of_str
    (mk "net.minecraft" "launchwrapper" "1.5" (Some "natives") "zip")).
  - split; reflexivity.
  - split; reflexivity.
  - split; reflexivity.
  - intros c H. injection H as <-. split; reflexivity.
  - reflexivity.
  - discriminate.
Defined.

Lemma from_string_fields_clean (s : string) (g : t) :
  from_string s = Ok g ->
  clean (group g) /\ clean (artifact g) /\ clean (version g)
  /\ (forall c, classifier g = Some c -> clean c)
  /\ has_char "@" (extension g) = false.
Proof.
  destruct (split "@" s) as [|b tail] eqn:Hsplit;
    [now elim (split_not_nil "@" s)|].
  rewrite (from_string_split _ _ _ Hsplit).
  pose proof (split_pieces_without "@" s) as Hpieces.
  rewrite Hsplit in Hpieces. inversion Hpieces as [|? ? Hb Htail]; subst.
  pose proof (split_pieces_without ":" b) as Hcolon.
  pose proof (split_pieces_inherit "@" ":" b Hb) as Hat.
  destruct (split ":" b) as [|x [|a [|v rest]]]; try discriminate.
  intros Hok. injection Hok as <-. unfold __init__, clean. cbn.
  inversion Hcolon as [|? ? Hx1 Hc1]; subst.
  inversion Hc1 as [|? ? Ha1 Hc2]; subst.
  inversion Hc2 as [|? ? Hv1 Hc3]; subst.
  inversion Hat as [|? ? Hx2 Ht1]; subst.
  inversion Ht1 as [|? ? Ha2 Ht2]; subst.
  inversion Ht2 as [|? ? Hv2 Ht3]; subst.
  split; [now split|]. split; [now split|]. split; [now split|].
  split.
  - intros c Hsome.
    destruct rest as [|c' [|c'' rest]]; try discriminate.
    injection Hsome as <-. split; [now inversion Hc3|now inversion Ht3].
  - destruct tail as [|e [|e' tail]]; try reflexivity.
    now inversion Htail.
Qed.

(** X2: the fields of a parsed coordinate hold no separator: no [:]
    and no [@] in the group, artifact, version and classifier, and no
    [@] in the extension. *)
Theorem X2_from_string_fields_clean (s : string) (g : t) :
  from_string s = Ok g ->
  clean (group g) /\ clean (artifact g) /\ clean (version g)
  /\ (forall c, classifier g = Some c -> clean c)
  /\ has_char "@" (extension g) = false.
Proof. apply from_string_fields_clean. Qed.

Lemma X2_from_string_fields_clean_witness :
  clean "org.lwjgl" /\ clean "lwjgl" /\ clean "3.3.1"
  /\ (forall c, Some "natives-linux" = Some c -> clean c)
  /\ has_char "@" "zip" = false.
Proof.
  apply (X2_from_string_fields_clean "org.lwjgl:lwjgl:3.3.1:natives-linux@zip"
           (mk "org.lwjgl" "lwjgl" "3.3.1" (Some "natives-linux") "zip")).
  reflexivity.
Defined.

Lemma str_effective_classifier (g : t) :
  __str__ (mk (group g) (artifact g) (version g)
             (effective_classifier (classifier g)) (extension g))
  = __str__ g.
Proof.
  unfold __str__, effective_classifier. cbn.
  destruct (classifier g) as [c|]; cbn [truthy_str]; [|reflexivity].
  destruct (c =? "") eqn:Hc; cbn [negb truthy_str]; [reflexivity|].
  now rewrite Hc.
Qed.

(** X3: rendering is stable under parsing: the string form of a
    parsed coordinate parses again, to a coordinate that compares
    equal and is written the same way. *)
Theorem X3_str_is_canonical (s : string) (g : t) :
  from_string s = Ok g ->
  exists g', from_string (__str__ g) = Ok g'
    /\ __str__ g' = __str__ g
    /\ __eq__ g (OSpecifier g') = true.
Proof.
  intros Hparse.
  destruct (from_string_fields_clean s g Hparse)
    as [Hg [Ha [Hv [Hc He]]]].
  eexists. split; [now apply from_string_of_str|].
  split; [apply str_effective_classifier|].
  unfold __eq__. cbn [str]. rewrite str_effective_classifier.
  apply String.eqb_refl.
Qed.

Lemma X3_str_is_canonical_witness :
  exists g', from_string (__str__ (mk "a" "b" "c" (Some "") "jar")) = Ok g'
    /\ __str__ g' = __str__ (mk "a" "b" "c" (Some "") "jar")
    /\ __eq__ (mk "a" "b" "c" (Some "") "jar") (OSpecifier g') = true.
Proof.
  apply (X3_str_is_canonical "a:b:c:"). reflexivity.
Defined.

(** X4: unless the string has exactly one [@], everything from the
    first [@] on is ignored: the string parses like its body alone, and
    a coordinate it yields has the extension ["jar"]. *)
Theorem X4_extension_needs_one_at (s : string) :
  List.length (split "@" s) <> 2 ->
  from_string s = from_string (Spec.body s)
  /\ (forall g, from_string s = Ok g -> extension g = "jar").
Proof.
  intros Hlen.
  destruct (split "@" s) as [|b tail] eqn:Hsplit;
    [now elim (split_not_nil "@" s)|].
  pose proof (split_partition_first "@" s) as Hp. rewrite Hsplit in Hp.
  injection Hp as Hb _. fold (Spec.body s) in Hb. subst b.
  pose proof (split_pieces_without "@" s) as Hpieces.
  rewrite Hsplit in Hpieces. inversion Hpieces as [|? ? Hbody _]; subst.
  assert (Hnone : match tail with [e] => Some e | _ => @None string end = None).
  { destruct tail as [|e [|e' tail]]; try reflexivity.
    now elim Hlen. }
  rewrite (from_string_split _ _ _ Hsplit), Hnone.
  rewrite (from_string_split _ _ _ (split_without "@" _ Hbody)).
  split; [reflexivity|].
  destruct (split ":" (Spec.body s)) as [|x [|a [|v rest]]];
    try discriminate.
  intros g H. injection H as <-. reflexivity.
Qed.

Lemma X4_extension_needs_one_at_witness :
  from_string "a:b:c@x@y" = from_string (Spec.body "a:b:c@x@y")
  /\ (forall g, from_string "a:b:c@x@y" = Ok g -> extension g = "jar").
Proof.
  apply (X4_extension_needs_one_at "a:b:c@x@y").
  vm_compute. discriminate.
Defined.

End Coordinates.

(** ** GradleSpecifier: the order of coordinates *)

Section Order.

Import GradleSpecifier.

Lemma compare_refl (s : string) : String.compare s s = Eq.
Proof.
  induction s as [|c s IH]; simpl; [reflexivity|].
  unfold Ascii.compare. now rewrite N.compare_refl.
Qed.

Lemma ltb_trans (a b c : string) :
  String.ltb a b = true -> String.ltb b c = true -> String.ltb a c = true.
Proof.
  unfold String.ltb. revert b c.
  induction a as [|x a IH]; intros [|y b] [|z c]; simpl; try easy.
  unfold Ascii.compare.
  destruct (N.compare_spec (N_of_ascii x) (N_of_ascii y)) as [Hxy|Hxy|Hxy];
    try easy;
    destruct (N.compare_spec (N_of_ascii y) (N_of_ascii z)) as [Hyz|Hyz|Hyz];
    try easy;
    destruct (N.compare_spec (N_of_ascii x) (N_of_ascii z)) as [Hxz|Hxz|Hxz];
    try easy; try lia.
  apply IH.
Qed.

(** X5: [__lt__] is a strict total order on string forms that agrees
    with [__eq__] and [__gt__]: it is irreflexive and transitive,
    [a > b] is [b < a], and of [a < b], [a == b], [a > b] exactly one
    holds. *)
Theorem X5_strict_total_order (a b c : t) :
  __lt__ a (OSpecifier a) = false
  /\ (__lt__ a (OSpecifier b) = true -> __lt__ b (OSpecifier c) = true ->
      __lt__ a (OSpecifier c) = true)
  /\ __gt__ a (OSpecifier b) = __lt__ b (OSpecifier a)
  /\ ((__lt__ a (OSpecifier b) = true /\ __eq__ a (OSpecifier b) = false
       /\ __gt__ a (OSpecifier b) = false)
      \/ (__lt__ a (OSpecifier b) = false /\ __eq__ a (OSpecifier b) = true
          /\ __gt__ a (OSpecifier b) = false)
      \/ (__lt__ a (OSpecifier b) = false /\ __eq__ a (OSpecifier b) = false
          /\ __gt__ a (OSpecifier b) = true)).
Proof.
  unfold __lt__, __gt__, __eq__. cbn [str].
  split; [unfold String.ltb; now rewrite compare_refl|].
  split; [apply ltb_trans|]. split; [reflexivity|].
  unfold String.ltb.
  rewrite (String.compare_antisym (__str__ b) (__str__ a)).
  destruct (String.compare (__str__ a) (__str__ b)) eqn:Hcmp; cbn.
  - right. left. apply String.compare_eq_iff in Hcmp.
    rewrite Hcmp, String.eqb_refl. auto.
  - left. split; [reflexivity|]. split; [|reflexivity].
    apply String.eqb_neq. intros Heq. rewrite Heq, compare_refl in Hcmp.
    discriminate.
  - right. right. split; [reflexivity|]. split; [|reflexivity].
    apply String.eqb_neq. intros Heq. rewrite Heq, compare_refl in Hcmp.
    discriminate.
Qed.

Lemma X5_strict_total_order_witness :
  __lt__ (mk "net.minecraft" "launchwrapper" "1.12" None "jar")
    (OSpecifier (mk "org.lwjgl" "lwjgl" "3.3.1" None "jar")) = true.
Proof.
  apply (proj1 (proj2 (X5_strict_total_order
    (mk "net.minecraft" "launchwrapper" "1.12" None "jar")
    (mk "net.minecraft" "launchwrapper" "1.5" None "jar")
    (mk "org.lwjgl" "lwjgl" "3.3.1" None "jar"))));
    reflexivity.
Defined.

End Order.

(** ** GradleSpecifier: the group predicates and paths *)

Section Groups.

Import GradleSpecifier Further.

Lemma is_lwjgl_groups (g : t) :
  is_lwjgl g = true ->
  group g = "org.lwjgl" \/ group g = "org.lwjgl.lwjgl"
  \/ group g = "net.java.jinput" \/ group g = "net.java.jutils".
Proof.
  unfold is_lwjgl, mem. cbn [existsb]. rewrite orb_false_r, !orb_true_iff.
  rewrite !String.eqb_eq. tauto.
Qed.

(** X6: [is_lwjgl] does not imply [is_archdependent]: of the four
    groups [is_lwjgl] accepts, the two jinput groups are arch-dependent
    only through an artifact that contains ["objc"]; and no coordinate
    is both [is_lwjgl] and [is_log4j]. *)
Theorem X6_lwjgl_groups (g : t) :
  (is_lwjgl g = true -> is_log4j g = false)
  /\ (is_lwjgl g = true ->
      (is_archdependent g = true <->
         group g = "org.lwjgl" \/ group g = "org.lwjgl.lwjgl"
         \/ Spec.substring_of "objc" (artifact g)))
  /\ (is_log4j g = true ->
      is_lwjgl g = false
      /\ is_archdependent g = contains "objc" (artifact g)).
Proof.
  split; [|split].
  - intros H. unfold is_log4j.
    destruct (is_lwjgl_groups g H) as [-> | [-> | [-> | ->]]]; reflexivity.
  - intros H. rewrite <- contains_iff. unfold is_archdependent.
    destruct (is_lwjgl_groups g H) as [Hg | [Hg | [Hg | Hg]]]; rewrite Hg;
      cbn -[contains "++"];
      change (contains "lwjgl" "org.lwjgl") with true;
      change (contains "lwjgl" "org.lwjgl.lwjgl") with true;
      change (contains "lwjgl" "net.java.jinput") with false;
      change (contains "lwjgl" "net.java.jutils") with false;
      cbv iota;
      try (split; [auto|reflexivity]);
      destruct (contains "objc" (artifact g));
      split; auto; intros [Hf|[Hf|Hf]]; discriminate.
  - unfold is_log4j. intros H. apply String.eqb_eq in H.
    unfold is_lwjgl, is_archdependent. rewrite H. split; [reflexivity|].
    change (contains "lwjgl" "org.apache.logging.log4j") with false.
    cbv iota. destruct (contains "objc" (artifact g)); reflexivity.
Qed.

Lemma X6_lwjgl_groups_witness :
  is_archdependent (mk "net.java.jinput" "jinput" "2.0.5" None "jar") = true
  <-> "net.java.jinput" = "org.lwjgl" \/ "net.java.jinput" = "org.lwjgl.lwjgl"
      \/ Spec.substring_of "objc" "jinput".
Proof.
  apply (proj1 (proj2 (X6_lwjgl_groups
    (mk "net.java.jinput" "jinput" "2.0.5" None "jar")))).
  reflexivity.
Defined.

Lemma replace_length (old new : ascii) (s : string) :
  String.length (replace old new s) = String.length s.
Proof. induction s; simpl; congruence. Qed.

Lemma replace_removes (old new : ascii) (s : string) :
  old <> new -> has_char old (replace old new s) = false.
Proof.
  intros Hne. induction s as [|c s IH]; simpl; [reflexivity|].
  rewrite IH, orb_false_r.
  destruct (Ascii.eqb_spec c old) as [->|Hc].
  - apply Ascii.eqb_neq. congruence.
  - now apply Ascii.eqb_neq.
Qed.

Lemma replace_absent (old new : ascii) (s : string) :
  has_char old s = false -> replace old new s = s.
Proof.
  induction s as [|c s IH]; simpl; [reflexivity|].
  intros H. apply orb_false_iff in H as [Hc Hs]. now rewrite Hc, IH.
Qed.

(** X7: in a repository path only the group is rewritten: the group
    segment has the length of the group and no [.] left, is the group
    itself when the group has no [.], and the artifact and version
    segments and the file name follow it unchanged, dots included. *)
Theorem X7_path_segments (g : t) :
  exists dir,
    path g = dir ++ "/" ++ artifact g ++ "/" ++ version g ++ "/" ++ filename g
    /\ base g = dir ++ "/" ++ artifact g ++ "/" ++ version g ++ "/"
    /\ String.length dir = String.length (group g)
    /\ has_char "." dir = false
    /\ (has_char "." (group g) = false -> dir = group g)
    /\ (forall n c, get n (group g) = Some c -> c <> "."%char ->
        get n dir = Some c).
Proof.
  exists (replace "." "/" (group g)).
  split; [|split; [|split; [|split; [|split]]]].
  - unfold path, base. repeat (rewrite ?append_assoc; cbn [append]).
    reflexivity.
  - reflexivity.
  - apply replace_length.
  - apply replace_removes. discriminate.
  - apply replace_absent.
  - intros n c Hget Hc. rewrite replace_get, Hget. cbn.
    apply Ascii.eqb_neq in Hc. now rewrite Hc.
Qed.

End Groups.

(** ** MojangLibrary.dict: when the expansion fails and what it keeps *)

Section Expansion.

Import MojangLibrary Further.

Lemma os_rule_init_result (arch : string) :
  OSRule.__init__ arch None
  = if valid_os arch then Ok (OSRule.mk arch None) else Raise ValidationError.
Proof.
  unfold OSRule.__init__, OSRule.name_must_be_os, valid_os.
  destruct (mem arch _); reflexivity.
Qed.

Lemma rule_init_result (action : string) (os : option OSRule.t) :
  MojangRule.__init__ action os
  = if valid_action action then Ok (MojangRule.mk action os)
    else Raise ValidationError.
Proof.
  unfold MojangRule.__init__, MojangRule.action_must_be_allow_disallow,
    valid_action.
  destruct (mem action _); reflexivity.
Qed.

Lemma with_rules_same (self : t) (rs : list MojangRule.t) :
  rules self = Some (MojangRules.mk rs) ->
  with_rules self (Some (MojangRules.mk rs)) = self.
Proof. intros <-. now destruct self. Qed.

Lemma append_arches_result (action : string) (arches : list string) :
  forall (self : t) (rs : list MojangRule.t),
    rules self = Some (MojangRules.mk rs) ->
    append_arches action arches self
    = if entry_ok (action, arches)
      then Ok (with_rules self
                 (Some (MojangRules.mk
                          (rs ++ map (Spec.arch_rule action) arches)%list)))
      else Raise ValidationError.
Proof.
  induction arches as [|arch arches IH]; intros self rs Hrules.
  - cbn. now rewrite app_nil_r, with_rules_same.
  - cbn [append_arches]. rewrite os_rule_init_result.
    unfold entry_ok. cbn [fst snd forallb].
    destruct (valid_os arch); cbn [bind andb];
      [|now rewrite andb_false_r].
    rewrite rule_init_result.
    destruct (valid_action action) eqn:Haction; cbn [bind andb];
      [|reflexivity].
    unfold append_rule. rewrite Hrules. cbn [bind MojangRules.__root__].
    erewrite IH by reflexivity.
    unfold entry_ok. cbn [fst snd]. rewrite Haction. cbn [andb].
    unfold with_rules. cbn.
    destruct arches as [|arch' arches]; cbn [forallb];
      [|destruct (valid_os arch' && forallb valid_os arches); [|reflexivity]];
      rewrite <- app_assoc; reflexivity.
Qed.

Lemma append_arch_rules_result (items : list (string * list string)) :
  forall (self : t) (rs : list MojangRule.t),
    rules self = Some (MojangRules.mk rs) ->
    append_arch_rules items self
    = if forallb entry_ok items
      then Ok (with_rules self
                 (Some (MojangRules.mk (rs ++ Spec.expansion items)%list)))
      else Raise ValidationError.
Proof.
  induction items as [|[action arches] items IH]; intros self rs Hrules.
  - cbn. now rewrite app_nil_r, with_rules_same.
  - cbn [append_arch_rules forallb].
    rewrite (append_arches_result action arches self rs Hrules).
    destruct (entry_ok (action, arches)); cbn [bind andb]; [|reflexivity].
    erewrite IH by reflexivity.
    destruct (forallb entry_ok items); [|reflexivity].
    unfold with_rules, Spec.expansion. cbn. rewrite <- app_assoc.
    reflexivity.
Qed.

(** The rules in front of the expansion: the explicit ones, or the
    blanket allow rule when the [rules] field is [None] and the map has
    the [disallow] action. *)
Lemma expand_result (self : t) (items : list (string * list string)) :
  arch_rules self = Some items ->
  expand self
  = if forallb entry_ok items
    then Ok (with_arch_rules
               (with_rules self
                  (Some (MojangRules.mk
                           ((match rules self with
                             | Some _ => []
                             | None =>
                                 if has_key "disallow" items
                                 then [Spec.allow_rule] else []
                             end
                             ++ Spec.explicit_rules (rules self))
                            ++ Spec.expansion items)%list)))
               None)
    else Raise ValidationError.
Proof.
  intros Hitems. unfold expand. rewrite Hitems.
  destruct (rules self) as [[rs]|] eqn:Hrules;
    cbn [MojangRules.truthy negb bind Spec.explicit_rules
         MojangRules.__root__ app].
  - rewrite (append_arch_rules_result items self rs Hrules).
    destruct (forallb entry_ok items); reflexivity.
  - rewrite app_nil_r. destruct (has_key "disallow" items).
    + rewrite rule_init_result. cbn [valid_action mem existsb bind].
      change (("allow" =? "allow") || _) with true. cbv iota.
      unfold append_rule.
      cbn [with_rules rules MojangRules.__root__ app bind].
      pose proof (append_arch_rules_result items) as E.
      match goal with
      | |- bind (append_arch_rules _ ?s) _ = _ =>
          specialize (E s [MojangRule.mk "allow" None] eq_refl)
      end.
      rewrite E. destruct (forallb entry_ok items); reflexivity.
    + cbn [bind].
      pose proof (append_arch_rules_result items) as E.
      match goal with
      | |- bind (append_arch_rules _ ?s) _ = _ =>
          specialize (E s [] eq_refl)
      end.
      rewrite E. destruct (forallb entry_ok items); reflexivity.
Qed.

(** X8: [dict] raises nothing but a [ValidationError], and raises it
    exactly when [arch_rules] has an entry with arch names and an
    action other than allow and disallow or an arch name outside the
    five OS names; an entry without arch names is never validated. *)
Theorem X8_dict_raises_iff (exclude_none : bool) (self : t) :
  (dict exclude_none self = Raise ValidationError <->
     exists items, arch_rules self = Some items
                   /\ forallb entry_ok items = false)
  /\ (forall e, dict exclude_none self = Raise e -> e = ValidationError).
Proof.
  unfold dict, dict_with.
  destruct (arch_rules self) as [[|kv items]|] eqn:Harch;
    cbn [truthy_list negb].
  - split; [split|]; try discriminate.
    intros [items [H Hbad]]. injection H as <-. discriminate.
  - rewrite (expand_result self _ Harch).
    destruct (forallb entry_ok (kv :: items)) eqn:Hok; cbn [bind].
    + split; [split|]; try discriminate.
      intros [items' [H Hbad]]. injection H as <-. congruence.
    + split; [split; [eauto|reflexivity]|].
      intros e H. now injection H.
  - split; [split|]; try discriminate.
    intros [items [H _]]. discriminate.
Qed.

Lemma X8_dict_raises_iff_witness :
  dict true (Sample.library None (Some [("allow", []); ("disallow", ["freebsd"])]))
  = Raise ValidationError.
Proof.
  apply (proj2 (proj1 (X8_dict_raises_iff true
    (Sample.library None (Some [("allow", []); ("disallow", ["freebsd"])]))))).
  eexists. split; reflexivity.
Defined.

(** X9: the expansion changes the [rules] and [arch_rules] fields
    only.  The explicit rules stay, in their order and unvalidated, in
    front of the synthesized ones; [arch_rules] ends as [None]; and a
    blanket allow rule is put first only when there was no [rules]
    field and the map has the [disallow] action. *)
Theorem X9_expand_keeps (self new_self : t)
    (items : list (string * list string)) :
  arch_rules self = Some items ->
  expand self = Ok new_self ->
  extract new_self = extract self
  /\ name new_self = name self
  /\ downloads new_self = downloads self
  /\ natives new_self = natives self
  /\ traits new_self = traits self
  /\ arch_rules new_self = None
  /\ exists front,
       rules new_self
       = Some (MojangRules.mk
                 (front ++ Spec.explicit_rules (rules self)
                    ++ Spec.expansion items)%list)
       /\ (front = [Spec.allow_rule] <->
           rules self = None /\ has_key "disallow" items = true)
       /\ (front = [] <->
           rules self <> None \/ has_key "disallow" items = false).
Proof.
  intros Hitems. rewrite (expand_result self items Hitems).
  destruct (forallb entry_ok items); [|discriminate].
  intros H. apply Ok_inj in H. subst new_self.
  repeat (split; [reflexivity|]).
  eexists. split; [cbn [with_arch_rules with_rules rules];
                   rewrite <- app_assoc; reflexivity|].
  destruct (rules self) as [rs|];
    [|destruct (has_key "disallow" items)];
    cbn [app]; intuition (try discriminate; try congruence).
Qed.

Lemma X9_expand_keeps_witness :
  exists front,
    rules (Sample.library
             (Some (MojangRules.mk [Spec.arch_rule "disallow" "osx-arm64"]))
             None)
    = Some (MojangRules.mk
              (front
               ++ Spec.explicit_rules (rules (Sample.library (Some (MojangRules.mk [])) (Some Sample.disallow_osx_arm64)))
               ++ Spec.expansion Sample.disallow_osx_arm64)%list)
    /\ (front = [Spec.allow_rule] <->
        rules (Sample.library (Some (MojangRules.mk [])) (Some Sample.disallow_osx_arm64)) = None
        /\ has_key "disallow" Sample.disallow_osx_arm64 = true)
    /\ (front = [] <->
        rules (Sample.library (Some (MojangRules.mk [])) (Some Sample.disallow_osx_arm64)) <> None
        \/ has_key "disallow" Sample.disallow_osx_arm64 = false).
Proof.
  apply (proj2 (proj2 (proj2 (proj2 (proj2 (proj2
    (X9_expand_keeps
       (Sample.library (Some (MojangRules.mk [])) (Some Sample.disallow_osx_arm64))
       (Sample.library
          (Some (MojangRules.mk [Spec.arch_rule "disallow" "osx-arm64"]))
          None)
       Sample.disallow_osx_arm64 eq_refl eq_refl))))))).
Defined.

End Expansion.

(** ** MojangLibrary.dict: the expanded copy *)

Section ExpandedCopy.

Import MojangLibrary Further.

(** X10: exporting the expanded copy gives the export of the original
    and expands nothing again: the copy has no [arch_rules] left, so
    [dict] takes its first branch on it. *)
Theorem X10_expanded_copy_exports_alike
    (extra : MetaBase.fields) (exclude_none : bool) (self new_self : t) :
  truthy_list (arch_rules self) = true ->
  expand self = Ok new_self ->
  truthy_list (arch_rules new_self) = false
  /\ dict_with extra exclude_none new_self
     = dict_with extra exclude_none self
  /\ dict_with extra exclude_none self
     = Ok (MetaBase.dict exclude_none
             (fields exclude_none new_self ++ extra)%list).
Proof.
  intros Htruthy Hexpand.
  pose proof (expand_clears_arch_rules _ _ Hexpand) as Hnone.
  unfold dict_with. rewrite Htruthy, Hnone, Hexpand. cbn [truthy_list negb].
  unfold bind. repeat split; reflexivity.
Qed.

Lemma X10_expanded_copy_exports_alike_witness :
  truthy_list
    (arch_rules
       (Sample.library
          (Some (MojangRules.mk
                   [Spec.allow_rule; Spec.arch_rule "disallow" "osx-arm64"]))
          None)) = false
  /\ dict_with [] true
       (Sample.library
          (Some (MojangRules.mk
                   [Spec.allow_rule; Spec.arch_rule "disallow" "osx-arm64"]))
          None)
     = dict_with [] true (Sample.library None (Some Sample.disallow_osx_arm64))
  /\ dict_with [] true (Sample.library None (Some Sample.disallow_osx_arm64))
     = Ok (MetaBase.dict true
             (fields true
                (Sample.library
                   (Some (MojangRules.mk
                            [Spec.allow_rule;
                             Spec.arch_rule "disallow" "osx-arm64"]))
                   None) ++ [])%list).
Proof.
  apply (X10_expanded_copy_exports_alike [] true
           (Sample.library None (Some Sample.disallow_osx_arm64))
           (Sample.library
              (Some (MojangRules.mk
                       [Spec.allow_rule; Spec.arch_rule "disallow" "osx-arm64"]))
              None));
    reflexivity.
Defined.




(** ** Trait derivation, repeated *)

Lemma add_trait_step (lib : t) :
  GradleSpecifier.is_archdependent (name lib) = true ->
  add_archdependent_trait lib
  = with_traits lib
      (Some (Spec.trait_list (traits lib) ++ ["ArchDependent"])%list).
Proof.
  intros Harch. unfold add_archdependent_trait. rewrite Harch.
  destruct (traits lib) as [[|x ts]|]; reflexivity.
Qed.

(** X12: on an arch-dependent descriptor every call appends one more
    ["ArchDependent"]: after [n + 1] calls the traits are the original
    ones followed by [n + 1] copies, and nothing else has changed; on
    any other descriptor no number of calls changes anything. *)
Theorem X12_add_trait_repeated (lib : t) (n : nat) :
  (GradleSpecifier.is_archdependent (name lib) = true ->
     Nat.iter (S n) add_archdependent_trait lib
     = with_traits lib
         (Some (Spec.trait_list (traits lib)
                  ++ repeat "ArchDependent" (S n))%list))
  /\ (GradleSpecifier.is_archdependent (name lib) = false ->
     Nat.iter n add_archdependent_trait lib = lib).
Proof.
  split; intros Harch.
  - induction n as [|n IH].
    + cbn [Nat.iter repeat]. now apply add_trait_step.
    + change (Nat.iter (S (S n)) add_archdependent_trait lib)
        with (add_archdependent_trait
                (Nat.iter (S n) add_archdependent_trait lib)).
      rewrite IH, add_trait_step by exact Harch.
      cbn [with_traits traits Spec.trait_list extract name downloads natives
             rules arch_rules].
      rewrite <- app_assoc.
      change (repeat "ArchDependent" (S n) ++ ["ArchDependent"])%list
        with (repeat "ArchDependent" (S n) ++ repeat "ArchDependent" 1)%list.
      rewrite <- repeat_app, Nat.add_1_r. reflexivity.
  - induction n as [|n IH]; [reflexivity|].
    change (Nat.iter (S n) add_archdependent_trait lib)
      with (add_archdependent_trait (Nat.iter n add_archdependent_trait lib)).
    rewrite IH. unfold add_archdependent_trait. now rewrite Harch.
Qed.

Lemma X12_add_trait_repeated_witness :
  Nat.iter 3 add_archdependent_trait (Sample.library None None)
  = with_traits (Sample.library None None)
      (Some ["ArchDependent"; "ArchDependent"; "ArchDependent"]).
Proof.
  apply (proj1 (X12_add_trait_repeated (Sample.library None None) 2)).
  reflexivity.
Defined.

End ExpandedCopy.

(** ** MetaBase.dict: what [exclude_none] removes *)

Section ExportedKeys.

Import Further.

Lemma distinct_nodup (l : list string) : distinct l = true -> NoDup l.
Proof.
  induction l as [|x l IH]; cbn [distinct]; [constructor|].
  intros H. apply andb_true_iff in H as [Hx Hl].
  constructor; [|now apply IH].
  intros Hin. apply negb_true_iff in Hx.
  assert (Htrue : mem x l = true).
  { unfold mem. apply existsb_exists. exists x.
    split; [exact Hin|apply String.eqb_refl]. }
  congruence.
Qed.

Lemma dict_keys_subset (exclude_none : bool) (fs : MetaBase.fields)
    (k : string) :
  has_key k (items (MetaBase.dict exclude_none fs)) = true ->
  In k (map fst fs).
Proof.
  unfold MetaBase.dict, has_key. cbn [items].
  induction fs as [|[k' [v|]] fs IH]; cbn; try discriminate.
  - intros H. apply orb_true_iff in H as [H|H]; [|auto].
    left. now apply String.eqb_eq.
  - destruct exclude_none; cbn; [auto|].
    intros H. apply orb_true_iff in H as [H|H]; [|auto].
    left. now apply String.eqb_eq.
Qed.

Lemma dict_has_set_field (exclude_none : bool) (fs : MetaBase.fields)
    (k : string) (v : pyobj) :
  In (k, Some v) fs ->
  In (k, v) (items (MetaBase.dict exclude_none fs))
  /\ has_key k (items (MetaBase.dict exclude_none fs)) = true.
Proof.
  unfold MetaBase.dict, has_key. cbn [items].
  induction fs as [|[k' [v'|]] fs IH]; cbn; [tauto| |].
  - intros [H|H].
    + injection H as -> ->. rewrite String.eqb_refl. auto.
    + destruct (IH H) as [Hin Hkey]. rewrite Hkey, orb_true_r. auto.
  - intros [H|H]; [discriminate|].
    destruct (IH H) as [Hin Hkey].
    destruct exclude_none; cbn; [auto|].
    rewrite Hkey, orb_true_r. auto.
Qed.

(** X13: without [exclude_none] the export has one entry per field,
    in declaration order; with it, exactly the fields that hold a value
    remain, in the same order, and the export is the other one with its
    [None] entries taken out. *)
Theorem X13_exclude_none_filters (fs : MetaBase.fields) :
  map fst (items (MetaBase.dict false fs)) = map fst fs
  /\ map fst (items (MetaBase.dict true fs)) = map fst (filter is_set fs)
  /\ (Forall (fun f => snd f <> Some PNone) fs ->
      items (MetaBase.dict true fs)
      = filter not_none (items (MetaBase.dict false fs)))
  /\ (forall k v, In (k, Some v) fs ->
      In (k, v) (items (MetaBase.dict true fs))
      /\ In (k, v) (items (MetaBase.dict false fs))).
Proof.
  unfold MetaBase.dict. cbn [items].
  split; [|split; [|split]].
  - induction fs as [|[k [v|]] fs IH]; cbn; congruence.
  - induction fs as [|[k [v|]] fs IH]; cbn; congruence.
  - induction 1 as [|[k [v|]] fs Hv _ IH]; cbn; [reflexivity| |exact IH].
    cbn in Hv. unfold not_none at 1. cbn [snd].
    destruct v; try (now rewrite IH); now elim Hv.
  - intros k v Hin. split.
    + exact (proj1 (dict_has_set_field true fs k v Hin)).
    + exact (proj1 (dict_has_set_field false fs k v Hin)).
Qed.

Lemma X13_exclude_none_filters_witness :
  items (MetaBase.dict true
           (OSRule.fields (OSRule.mk "osx" None)))
  = filter not_none
      (items (MetaBase.dict false (OSRule.fields (OSRule.mk "osx" None)))).
Proof.
  apply (proj1 (proj2 (proj2 (X13_exclude_none_filters
    (OSRule.fields (OSRule.mk "osx" None)))))).
  repeat constructor; discriminate.
Defined.

(** X17: a version document and a package document export aliases
    only, each at most once, and always the required ones: the keys are
    among [formatVersion], [name], [uid], ..., [+tweakers], never an
    internal field name such as [format_version], whatever the optional
    fields hold and with or without [exclude_none]. *)
Theorem X17_document_keys
    (exclude_none : bool) (v : MetaVersion.t) (p : MetaPackage.t)
    (data : pyobj) :
  (MetaVersion.dict exclude_none v = Ok data ->
     (forall k, has_key k (items data) = true -> In k version_keys)
     /\ NoDup (map fst (items data))
     /\ has_key "formatVersion" (items data) = true
     /\ has_key "name" (items data) = true
     /\ has_key "version" (items data) = true
     /\ has_key "uid" (items data) = true
     /\ has_key "format_version" (items data) = false)
  /\ (forall k, has_key k (items (MetaPackage.dict exclude_none p)) = true ->
      In k package_keys)
  /\ NoDup (map fst (items (MetaPackage.dict exclude_none p)))
  /\ has_key "formatVersion" (items (MetaPackage.dict exclude_none p)) = true
  /\ has_key "name" (items (MetaPackage.dict exclude_none p)) = true
  /\ has_key "uid" (items (MetaPackage.dict exclude_none p)) = true.
Proof.
  split.
  - unfold MetaVersion.dict, MetaVersion.fields.
    destruct (option_result _ (MetaVersion.libraries _)) as [libs|e];
      [|discriminate]; cbn [bind].
    destruct (option_result _ (MetaVersion.maven_files _)) as [maven|e];
      [|discriminate]; cbn [bind].
    destruct (option_result _ (MetaVersion.main_jar _)) as [jar|e];
      [|discriminate]; cbn [bind].
    destruct (option_result _ (MetaVersion.jar_mods _)) as [mods|e];
      [|discriminate]; cbn [bind].
    intros H. apply Ok_inj in H. subst data.
    match goal with
    | |- context [MetaBase.dict exclude_none ?fs] => set (fields := fs)
    end.
    assert (Hkeys : map fst fields = version_keys) by reflexivity.
    assert (Hsub : forall k,
      has_key k (items (MetaBase.dict exclude_none fields)) = true ->
      In k version_keys).
    { intros k Hk. rewrite <- Hkeys. now apply dict_keys_subset in Hk. }
    split; [exact Hsub|].
    split.
    { apply dict_keys_nodup. rewrite Hkeys.
      apply distinct_nodup. vm_compute. reflexivity. }
    repeat split;
      try (eapply dict_has_set_field; unfold fields, Versioned.fields;
           cbn [app]; auto 8 using in_eq, in_cons).
    destruct (has_key "format_version"
                (items (MetaBase.dict exclude_none fields))) eqn:Hk;
      [|reflexivity].
    apply Hsub in Hk. cbn in Hk.
    repeat (destruct Hk as [Hk|Hk]; [discriminate|]). contradiction.
  - unfold MetaPackage.dict.
    set (fields := MetaPackage.fields p).
    assert (Hkeys : map fst fields = package_keys) by reflexivity.
    split.
    { intros k Hk. rewrite <- Hkeys. now apply dict_keys_subset in Hk. }
    split.
    { apply dict_keys_nodup. rewrite Hkeys.
      apply distinct_nodup. vm_compute. reflexivity. }
    repeat split;
      eapply dict_has_set_field; unfold fields, MetaPackage.fields,
        Versioned.fields; cbn [app]; auto 8 using in_eq, in_cons.
Qed.

Lemma X17_document_keys_witness :
  (forall k,
     has_key k
       (items
          (MetaBase.dict true
             [("formatVersion", Some (PInt 1));
              ("name", Some (PStr "LWJGL 3"));
              ("version", Some (PStr "3.3.1"));
              ("uid", Some (PStr "org.lwjgl3"));
              ("libraries", Some (PList []))])) = true ->
     In k version_keys)
  /\ NoDup ["formatVersion"; "name"; "version"; "uid"; "libraries"].
Proof.
  pose proof (proj1 (X17_document_keys true
    (MetaVersion.mk (Versioned.mk 1)
       (MetaVersion.mk_body "LWJGL 3" "3.3.1" "org.lwjgl3"
          None None None None None (Some [])
          None None None None None None None None None None None))
    (MetaPackage.mk (Versioned.mk 1)
       (MetaPackage.mk_body "LWJGL 3" "org.lwjgl3" None None None None))
    (MetaBase.dict true
       [("formatVersion", Some (PInt 1));
        ("name", Some (PStr "LWJGL 3"));
        ("version", Some (PStr "3.3.1"));
        ("uid", Some (PStr "org.lwjgl3"));
        ("libraries", Some (PList []))])) eq_refl) as H.
  split; [exact (proj1 H)|exact (proj1 (proj2 H))].
Defined.

End ExportedKeys.

(** ** Documents that were built *)

Section Built.

Import Further.



(** ** MojangRules as a sequence *)

Lemma nth_error_map_dict (exclude_none : bool) (l : list MojangRule.t)
    (i : nat) :
  nth_error (map (MojangRule.dict exclude_none) l) i
  = option_map (MojangRule.dict exclude_none) (nth_error l i).
Proof. apply nth_error_map. Qed.

(** X16: indexing a [MojangRules] fails with [IndexError] exactly from
    its length on; below the length it returns the rule that iteration
    meets at that position, and the export lists the rules in the same
    order: the export's element at that position is the export of the
    rule. *)
Theorem X16_rules_indexing (exclude_none : bool) (self : MojangRules.t)
    (item : nat) :
  (MojangRules.__getitem__ self item = Raise IndexError <->
     List.length (MojangRules.__iter__ self) <= item)
  /\ (item < List.length (MojangRules.__iter__ self) ->
      exists rule,
        MojangRules.__getitem__ self item = Ok rule
        /\ nth_error (MojangRules.__iter__ self) item = Some rule
        /\ nth_error (elements (MojangRules.dict exclude_none self)) item
           = Some (MojangRule.dict exclude_none rule))
  /\ List.length (elements (MojangRules.dict exclude_none self))
     = List.length (MojangRules.__iter__ self).
Proof.
  unfold MojangRules.__getitem__, MojangRules.__iter__, MojangRules.dict,
    getitem. cbn [elements].
  split; [|split].
  - destruct (nth_error (MojangRules.__root__ self) item) eqn:Hnth.
    + split; [discriminate|]. intros Hlen.
      apply nth_error_None in Hlen. congruence.
    + split; [|reflexivity]. intros _. now apply nth_error_None.
  - intros Hlt.
    destruct (nth_error (MojangRules.__root__ self) item) as [rule|] eqn:Hnth.
    + exists rule. split; [reflexivity|]. split; [reflexivity|].
      now rewrite nth_error_map_dict, Hnth.
    + apply nth_error_None in Hnth. lia.
  - apply length_map.
Qed.

Lemma X16_rules_indexing_witness :
  exists rule,
    MojangRules.__getitem__
      (MojangRules.mk [Spec.allow_rule; Spec.arch_rule "disallow" "osx-arm64"])
      1 = Ok rule
    /\ nth_error
         (MojangRules.__iter__
            (MojangRules.mk
               [Spec.allow_rule; Spec.arch_rule "disallow" "osx-arm64"])) 1
       = Some rule
    /\ nth_error
         (elements
            (MojangRules.dict true
               (MojangRules.mk
                  [Spec.allow_rule; Spec.arch_rule "disallow" "osx-arm64"])))
         1
       = Some (MojangRule.dict true rule).
Proof.
  apply (proj1 (proj2 (X16_rules_indexing true
    (MojangRules.mk [Spec.allow_rule; Spec.arch_rule "disallow" "osx-arm64"])
    1))).
  cbn. lia.
Defined.

End Built.

(** ** The characters of the JSON text *)

Section Characters.

Import Further.

Variable serialize_datetime : datetime -> string.

Lemma all_chars_app (p : ascii -> bool) (a b : string) :
  all_chars p (a ++ b) = all_chars p a && all_chars p b.
Proof.
  induction a as [|c a IH]; simpl; [reflexivity|].
  now rewrite IH, andb_assoc.
Qed.

Lemma all_chars_concat (p : ascii -> bool) (sep : string) (l : list string) :
  all_chars p sep = true ->
  Forall (fun s => all_chars p s = true) l ->
  all_chars p (concat sep l) = true.
Proof.
  intros Hsep. induction 1 as [|s l Hs Hl IH]; [reflexivity|].
  cbn [concat]. destruct l as [|s' l]; [exact Hs|].
  now rewrite !all_chars_app, Hs, Hsep, IH.
Qed.

Lemma all_chars_weaken (p q : ascii -> bool) (s : string) :
  (forall c, p c = true -> q c = true) ->
  all_chars p s = true -> all_chars q s = true.
Proof.
  intros Hpq. induction s as [|c s IH]; simpl; [reflexivity|].
  intros H. apply andb_true_iff in H as [Hc Hs].
  now rewrite (Hpq c Hc), IH.
Qed.

Lemma printable_weaken (s : string) :
  all_chars printable s = true -> all_chars printable_or_newline s = true.
Proof.
  apply all_chars_weaken. intros c H. unfold printable_or_newline.
  now rewrite H.
Qed.

Lemma escape_char_printable (c : ascii) :
  all_chars printable (escape_char c) = true.
Proof.
  destruct c as [[|] [|] [|] [|] [|] [|] [|] [|]]; reflexivity.
Qed.

Lemma escape_printable (s : string) : all_chars printable (escape s) = true.
Proof.
  induction s as [|c s IH]; simpl; [reflexivity|].
  now rewrite all_chars_app, escape_char_printable, IH.
Qed.

Lemma encode_str_printable (s : string) :
  all_chars printable (encode_str s) = true.
Proof.
  unfold encode_str. cbn [all_chars].
  now rewrite all_chars_app, escape_printable.
Qed.

Lemma str_int_printable (z : Z) : all_chars printable (str_int z) = true.
Proof.
  unfold str_int, NilEmpty.string_of_int.
  assert (H : forall d, all_chars printable (NilEmpty.string_of_uint d) = true).
  { induction d; simpl; auto. }
  destruct (Z.to_int z); simpl; apply H.
Qed.

Lemma spaces_printable (n : nat) : all_chars printable (spaces n) = true.
Proof. induction n; simpl; auto. Qed.

Lemma newline_indent_ok (level : nat) :
  all_chars printable_or_newline (newline_indent level) = true.
Proof.
  unfold newline_indent. cbn [all_chars].
  now rewrite (printable_weaken _ (spaces_printable _)).
Qed.

Lemma encode_chars (o : pyobj) :
  forall level,
    all_chars printable_or_newline (encode serialize_datetime level o) = true.
Proof.
  induction o as [|[|]| | | | |l IH|d IH] using pyobj_nested_ind;
    intros level; cbn [encode]; try reflexivity;
    try (apply printable_weaken;
         first [apply encode_str_printable | apply str_int_printable]).
  - (* lists *)
    destruct l as [|x l]; [reflexivity|].
    rewrite !all_chars_app, newline_indent_ok, newline_indent_ok.
    rewrite all_chars_concat; [reflexivity| |].
    + rewrite all_chars_app, newline_indent_ok. reflexivity.
    + apply Forall_map. eapply Forall_impl; [|exact IH]. auto.
  - (* dictionaries *)
    destruct d as [|x d]; [reflexivity|].
    rewrite !all_chars_app, newline_indent_ok, newline_indent_ok.
    rewrite all_chars_concat; [reflexivity| |].
    + rewrite all_chars_app, newline_indent_ok. reflexivity.
    + apply Forall_map.
      eapply Permutation_Forall; [apply sort_items_permutation|].
      apply Forall_map. eapply Forall_impl; [|exact IH].
      intros kv Hkv. cbn [fst snd].
      rewrite !all_chars_app, (printable_weaken _ (encode_str_printable _)).
      now rewrite Hkv.
Qed.

(** X15: the JSON text is plain ASCII: whatever the strings of the
    document hold, every character written is printable ASCII or the
    line feed of the indentation, and a string literal, keys included,
    is printable ASCII throughout, so no string breaks a line. *)
Theorem X15_json_is_ascii (o : pyobj) (s : string) (v : MetaVersion.t)
    (p : MetaPackage.t) :
  all_chars printable_or_newline (dumps serialize_datetime o) = true
  /\ all_chars printable (encode_str s) = true
  /\ has_char newline (encode_str s) = false
  /\ (forall text, MetaVersion.json serialize_datetime v = Ok text ->
      all_chars printable_or_newline text = true)
  /\ all_chars printable_or_newline (MetaPackage.json serialize_datetime p)
     = true.
Proof.
  split; [apply encode_chars|]. split; [apply encode_str_printable|].
  split.
  - pose proof (encode_str_printable s) as H.
    induction (encode_str s) as [|c r IH]; simpl; [reflexivity|].
    simpl in H. apply andb_true_iff in H as [Hc Hr].
    rewrite (IH Hr), orb_false_r.
    destruct (Ascii.eqb_spec c newline) as [->|]; [discriminate|reflexivity].
  - split; [|apply encode_chars].
    unfold MetaVersion.json. intros text.
    destruct (MetaVersion.dict true v) as [data|e]; [|discriminate].
    unfold bind. intros H. apply Ok_inj in H. subst text.
    apply encode_chars.
Qed.

End Characters.

Lemma X15_json_is_ascii_witness :
  Further.all_chars Further.printable_or_newline
    (MetaPackage.json (fun _ => "")
       (MetaPackage.mk (Versioned.mk 1)
          (MetaPackage.mk_body "LWJGL 3" "org.lwjgl3" None None None None)))
  = true.
Proof.
  apply (proj2 (proj2 (proj2 (proj2 (X15_json_is_ascii (fun _ => "")
    PNone ""
    (Sample.version_with (Sample.library None None))
    (MetaPackage.mk (Versioned.mk 1)
       (MetaPackage.mk_body "LWJGL 3" "org.lwjgl3" None None None None))))))).
Defined.

(** ** The keys of an exported library *)

Section LibraryKeys.

Import MojangLibrary Further.

Lemma fields_rules_key (exclude_none : bool) (self : t) :
  has_key "rules" (items (MetaBase.dict true (fields exclude_none self)))
  = match rules self with
    | Some _ => true
    | None => false
    end
  /\ has_key "traits" (items (MetaBase.dict true (fields exclude_none self)))
     = match traits self with
       | Some _ => true
       | None => false
       end.
Proof.
  destruct self as [e n d na r a tr].
  destruct e, d, na, r, a, tr; split; reflexivity.
Qed.

(** X18: with [exclude_none], the export of a library always holds
    the coordinate under [name]; it has a [rules] entry exactly when
    the library has explicit rules or a non-empty [arch_rules] (the
    expansion creates the list, even if it stays empty), and a [traits]
    entry exactly when traits are set. *)
Theorem X18_library_export_keys (self : t) (data : pyobj) :
  dict true self = Ok data ->
  In ("name", PSpecifier (name self)) (items data)
  /\ (has_key "rules" (items data) = true <->
      rules self <> None \/ truthy_list (arch_rules self) = true)
  /\ (has_key "traits" (items data) = true <-> traits self <> None).
Proof.
  unfold dict, dict_with.
  destruct (truthy_list (arch_rules self)) eqn:Htruthy; cbn [negb].
  - destruct (arch_rules self) as [items|] eqn:Harch; [|discriminate].
    rewrite (expand_result self items Harch).
    destruct (forallb entry_ok items); [|discriminate].
    unfold bind. intros H. apply Ok_inj in H. subst data.
    rewrite app_nil_r.
    match goal with
    | |- context [fields true ?n] => set (new_self := n)
    end.
    destruct (fields_rules_key true new_self) as [Hrules Htraits].
    split; [|split].
    + apply (dict_has_set_field true (fields true new_self)).
      unfold fields. right. left. reflexivity.
    + rewrite Hrules. cbn. split; auto.
    + rewrite Htraits. cbn.
      destruct (traits self); split; congruence.
  - intros H. apply Ok_inj in H. subst data. rewrite app_nil_r.
    destruct (fields_rules_key true self) as [Hrules Htraits].
    split; [|split].
    + apply (dict_has_set_field true (fields true self)).
      unfold fields. right. left. reflexivity.
    + rewrite Hrules.
      destruct (rules self); intuition (try discriminate; try congruence).
    + rewrite Htraits. destruct (traits self); split; congruence.
Qed.

Lemma X18_library_export_keys_witness :
  has_key "rules"
    (items
       (PDict [("name", PSpecifier Sample.lwjgl); ("rules", PList [])]))
  = true
  <-> rules (Sample.library None (Some [("allow", [])])) <> None
      \/ truthy_list (arch_rules (Sample.library None (Some [("allow", [])])))
         = true.
Proof.
  apply (proj1 (proj2 (X18_library_export_keys
    (Sample.library None (Some [("allow", [])]))
    (PDict [("name", PSpecifier Sample.lwjgl); ("rules", PList [])])
    eq_refl))).
Defined.

End LibraryKeys.

(** ** GradleSpecifier.validate *)

Section Validate.

Import GradleSpecifier.

(** X19: [validate] returns a coordinate as it is and parses a string;
    it raises [TypeError] exactly for a value that is neither, and
    [IndexError] exactly for a string whose body has fewer than three
    components; it raises nothing else. *)
Theorem X19_validate_errors (v : operand) :
  (forall g, v = OSpecifier g -> validate v = Ok g)
  /\ (validate v = Raise TypeError <-> exists z, v = OInt z)
  /\ (validate v = Raise IndexError <->
      exists s, v = OStr s /\ Spec.component_count s < 3)
  /\ (forall e, validate v = Raise e -> e = TypeError \/ e = IndexError).
Proof.
  destruct v as [g|s|z]; cbn [validate].
  - split; [now intros ? [= ->]|].
    split; [split; [discriminate|now intros [? ?]]|].
    split; [split; [discriminate|now intros [? [? ?]]]|discriminate].
  - split; [discriminate|].
    assert (Hraise : forall e, from_string s = Raise e -> e = IndexError).
    { intros e. rewrite from_string_components.
      destruct (split ":" (Spec.body s)) as [|x [|a [|ver rest]]];
        try discriminate; now intros [= <-]. }
    split; [split; [intros H; now apply Hraise in H|now intros [? ?]]|].
    split; [|intros e H; right; now apply Hraise].
    rewrite from_string_too_few. split.
    + intros H. now exists s.
    + now intros [? [[= <-] H]].
  - split; [discriminate|].
    split; [split; [now exists z|reflexivity]|].
    split; [split; [discriminate|now intros [? [? ?]]]|].
    intros e [= <-]. now left.
Qed.

Lemma X19_validate_errors_witness :
  validate (OSpecifier (mk "org.lwjgl" "lwjgl" "3.3.1" None "jar"))
  = Ok (mk "org.lwjgl" "lwjgl" "3.3.1" None "jar").
Proof.
  apply (proj1 (X19_validate_errors
    (OSpecifier (mk "org.lwjgl" "lwjgl" "3.3.1" None "jar")))).
  reflexivity.
Defined.

End Validate.
